(** * onion-fp-ts: the effect stack, the services and the shell, embedded in Rocq

    The TypeScript program composes two fallible, asynchronous lookups
    (user by email, then account by owner id) in fp-ts's
    [ReaderTaskEither].  This file embeds

    - the values the program handles ([Email], [UserId], [User], [Account],
      [DomainError] and the service errors),
    - the fp-ts combinators the sources call, with their fp-ts 2.16 meaning,
    - the three service contracts and their accessor functions,
    - the hardcoded and the database-backed providers, and
    - the shell function [getAccountByUserEmail],

    and proves the properties documented for them.

    Effects.  A JavaScript call may act on the outside world (record a call
    in a jest mock, write to the console, query the database).  Such a call
    is a state transformer [IO W A = W -> A * W] on a world [W].  An fp-ts
    [Task A] is a thunk [() => Promise<A>]; running it and awaiting the
    promise is again a state transformer.  Two moments are kept apart, as in
    the source: calling a service operation (which returns a task) and
    running the task it returned. *)

From Stdlib Require Import String Ascii List ZArith Lia.
From stdpp Require Import gmap strings list.

Import ListNotations.
Open Scope string_scope.
Set Implicit Arguments.
Set Default Proof Using "Type".
Set Warnings "-register-all".

(* ===================================================================== *)
(** * Part I.  Definitions                                                 *)
(* ===================================================================== *)

(** ** The world-passing monad *)

Definition IO (W A : Type) : Type := W -> A * W.

Definition ret {W A} (a : A) : IO W A := fun w => (a, w).

Definition bind {W A B} (m : IO W A) (k : A -> IO W B) : IO W B :=
  fun w => let (a, w') := m w in k a w'.

Declare Scope io_scope.
Delimit Scope io_scope with io.
Notation "x <- m ;; k" := (bind m (fun x => k))
  (at level 200, m at level 99, k at level 200) : io_scope.
Open Scope io_scope.

(** ** fp-ts/Either *)

Inductive Either (E A : Type) : Type :=
| Left (e : E)
| Right (a : A).
Arguments Left {E A} e.
Arguments Right {E A} a.

Module E.

(** [E.of = right]; [of] is a keyword here, hence the underscore. *)
Definition of_ {E A} (a : A) : Either E A := Right a.

Definition map {E A B} (f : A -> B) (fa : Either E A) : Either E B :=
  match fa with
  | Left e => Left e
  | Right a => Right (f a)
  end.

Definition mapLeft {E G A} (f : E -> G) (fa : Either E A) : Either G A :=
  match fa with
  | Left e => Left (f e)
  | Right a => Right a
  end.

Definition bimap {E G A B} (f : E -> G) (g : A -> B) (fa : Either E A)
  : Either G B :=
  match fa with
  | Left e => Left (f e)
  | Right a => Right (g a)
  end.

End E.

(** ** fp-ts/Task: [Task A = () => Promise<A>], a promise that never rejects *)

Definition Task (W A : Type) : Type := IO W A.

Module T.

(** [T.of a = () => Promise.resolve(a)]. *)
Definition of_ {W A} (a : A) : Task W A := ret a.

(** [T.map f fa = () => Promise.resolve().then(fa).then(f)]. *)
Definition map {W A B} (f : A -> B) (fa : Task W A) : Task W B :=
  a <- fa ;; ret (f a).

(** [T.flatMap ma f = () => Promise.resolve().then(ma).then(a => f(a)())]:
    the first task is run to completion, then [f a] is called (a JavaScript
    call, which may itself act on the world) and the task it returns is
    run. *)
Definition flatMap {W A B} (ma : Task W A) (f : A -> IO W (Task W B))
  : Task W B :=
  a <- ma ;; tb <- f a ;; tb.

End T.

(** ** fp-ts/TaskEither *)

Definition TaskEither (W E A : Type) : Type := Task W (Either E A).

(** The outcome of a JavaScript promise. *)
Inductive Settled (R A : Type) : Type :=
| Resolved (value : A)
| Rejected (reason : R).
Arguments Resolved {R A} value.
Arguments Rejected {R A} reason.

Module TE.

Definition of_ {W E A} (a : A) : TaskEither W E A := T.of_ (Right a).

Definition map {W E A B} (f : A -> B) (fa : TaskEither W E A)
  : TaskEither W E B :=
  T.map (E.map f) fa.

(** [TE.flatMap ma f = T.flatMap ma (e => isLeft(e) ? T.of(e) : f(e.right))]:
    on a left the continuation is not called. *)
Definition flatMap {W E A B} (ma : TaskEither W E A)
  (f : A -> IO W (TaskEither W E B)) : TaskEither W E B :=
  T.flatMap ma (fun e =>
    match e with
    | Left l => ret (T.of_ (Left l))
    | Right a => f a
    end).

(** [TE.fromTask = T.map(E.right)]. *)
Definition fromTask {W E A} (fa : Task W A) : TaskEither W E A :=
  T.map Right fa.

(** [TE.tryCatch f onRejected]: run the lazy promise [f]; a resolution
    becomes a right, a rejection becomes [left (onRejected reason)]. *)
Definition tryCatch {W R E A} (f : IO W (Settled R A)) (onRejected : R -> E)
  : TaskEither W E A :=
  s <- f ;;
  ret match s with
      | Resolved a => Right a
      | Rejected reason => Left (onRejected reason)
      end.

End TE.

(** ** fp-ts/ReaderTaskEither

    [ReaderTaskEither R E A = (r: R) => TaskEither<E, A>].  Applying the
    reader to the environment is a JavaScript call: in this program it is
    the moment a service operation is called. *)

Definition ReaderTask (W R A : Type) : Type := R -> IO W (Task W A).

Definition ReaderTaskEither (W R E A : Type) : Type :=
  R -> IO W (TaskEither W E A).

Module RT.

(** [RT.map f fa = r => T.map(f)(fa(r))]. *)
Definition map {W R A B} (f : A -> B) (fa : ReaderTask W R A)
  : ReaderTask W R B :=
  fun r => t <- fa r ;; ret (T.map f t).

End RT.

Module RTE.

(** [RTE.of a = () => TE.of(a)]. *)
Definition of_ {W R E A} (a : A) : ReaderTaskEither W R E A :=
  fun _ => ret (TE.of_ a).

(** [RTE.map f fa = r => TE.map(f)(fa(r))]. *)
Definition map {W R E A B} (f : A -> B) (fa : ReaderTaskEither W R E A)
  : ReaderTaskEither W R E B :=
  fun r => t <- fa r ;; ret (TE.map f t).

(** [RTE.bimap f g fa = r => TE.bimap(f, g)(fa(r))]. *)
Definition bimap {W R E G A B} (f : E -> G) (g : A -> B)
  (fa : ReaderTaskEither W R E A) : ReaderTaskEither W R G B :=
  fun r => t <- fa r ;; ret (T.map (E.bimap f g) t).

(** [RTE.flatMap f ma = r => TE.flatMap(ma(r), a => f(a)(r))]. *)
Definition flatMap {W R E A B} (f : A -> ReaderTaskEither W R E B)
  (ma : ReaderTaskEither W R E A) : ReaderTaskEither W R E B :=
  fun r => t <- ma r ;; ret (TE.flatMap t (fun a => f a r)).

(** [RTE.tap f ma = RTE.flatMap(a => RTE.map(() => a)(f(a)))(ma)]. *)
Definition tap {W R E A B} (f : A -> ReaderTaskEither W R E B)
  (ma : ReaderTaskEither W R E A) : ReaderTaskEither W R E A :=
  flatMap (fun a => map (fun _ => a) (f a)) ma.

(** [RTE.fromEither e = () => T.of(e)]. *)
Definition fromEither {W R E A} (e : Either E A) : ReaderTaskEither W R E A :=
  fun _ => ret (T.of_ e).

(** [RTE.flatMapEither f ma = RTE.flatMap(a => RTE.fromEither(f(a)))(ma)]. *)
Definition flatMapEither {W R E A B} (f : A -> Either E B)
  (ma : ReaderTaskEither W R E A) : ReaderTaskEither W R E B :=
  flatMap (fun a => fromEither (f a)) ma.

(** Running an effect as the composition root does,
    [await effect(deps)()]: apply the reader, then run the task. *)
Definition run {W R E A} (ma : ReaderTaskEither W R E A) (deps : R)
  : IO W (Either E A) :=
  t <- ma deps ;; t.

End RTE.

(** ** JavaScript values

    The data that crosses the program's untyped boundaries (a database row,
    the input of an io-ts codec): the JSON-shaped fragment of JavaScript.
    Numbers are the integers among them; an object is its own enumerable
    properties in insertion order, with distinct keys. *)

Inductive JsValue : Type :=
| JsUndefined
| JsNull
| JsBool (b : bool)
| JsNumber (n : Z)
| JsString (s : string)
| JsArray (items : list JsValue)
| JsObject (props : list (string * JsValue)).

(** [typeof u]. *)
Definition typeof (u : JsValue) : string :=
  match u with
  | JsUndefined => "undefined"
  | JsNull => "object"
  | JsBool _ => "boolean"
  | JsNumber _ => "number"
  | JsString _ => "string"
  | JsArray _ => "object"
  | JsObject _ => "object"
  end.

(** [a[k]]: the value of an own property, [undefined] when there is none. *)
Fixpoint getProp (k : string) (props : list (string * JsValue)) : JsValue :=
  match props with
  | [] => JsUndefined
  | (k', v) :: rest => if String.eqb k k' then v else getProp k rest
  end.

(** ** fp-ts/Option *)

Module O.

Definition flatten {A} (mma : option (option A)) : option A :=
  match mma with
  | Some ma => ma
  | None => None
  end.

(** [O.traverse(F)(f)(ta) = isNone(ta) ? F.of(none) : F.map(f(ta.value), some)],
    at the applicative of [ReaderTaskEither]. *)
Definition traverseRTE {W R E A B} (f : A -> ReaderTaskEither W R E B)
  (ta : option A) : ReaderTaskEither W R E (option B) :=
  match ta with
  | None => RTE.of_ None
  | Some a => RTE.map Some (f a)
  end.

(** The same at the applicative of [Either]. *)
Definition traverseE {E A B} (f : A -> Either E B) (ta : option A)
  : Either E (option B) :=
  match ta with
  | None => E.of_ None
  | Some a => E.map Some (f a)
  end.

(** [O.fromNullable a = a == null ? none : some(a)]. *)
Definition fromNullable (a : JsValue) : option JsValue :=
  match a with
  | JsUndefined | JsNull => None
  | _ => Some a
  end.

End O.

(** ** src/core/domain-error.ts

    [DomainError]'s constructor takes [data: unknown] and looks at it in
    five ways only.  A payload is represented by what those five
    observations give:

    - [truthy]: the outcome of the test [data && ...];
    - [type]: [typeof data];
    - [toString]: the outcome of the call [data.toString()], made only for
      a truthy object: the value it returns, which need not be a string, or
      an exception (a [toString] that throws, or none that can be called,
      as for [Object.create(null)]);
    - [stringify]: the outcome of [JSON.stringify(data, null, 2)], which
      returns a string, returns [undefined] (for [undefined], functions
      and symbols) or throws (cycles, BigInt);
    - [inspect]: the outcome of
      [util.inspect(data, { depth: null, colors: false })], made only when
      [JSON.stringify] has thrown: a string, or an exception (a custom
      inspection function or a getter that throws). *)

(** The outcome of a call that may throw.  The exception itself is not
    kept: nothing in the sources catches it and looks at it. *)
Inductive Completion (A : Type) : Type :=
| Normal (a : A)
| Throws.
Arguments Normal {A} a.
Arguments Throws {A}.

Definition returns {A} (c : Completion A) : Prop :=
  match c with
  | Normal _ => True
  | Throws => False
  end.

(** The value of a call that is known to return. *)
Definition returned {A} (c : Completion A) : returns c -> A :=
  match c with
  | Normal a => fun _ => a
  | Throws => fun H => match H with end
  end.

Inductive StringifyOutcome : Type :=
| Stringified (s : string)
| StringifiedUndefined
| StringifyThrows.

Inductive ToStringOutcome : Type :=
| ToStringReturns (v : JsValue)
| ToStringThrows.

Record Payload : Type := {
  truthy : bool;
  type : string;
  toString : ToStringOutcome;
  stringify : StringifyOutcome;
  inspect : Completion string
}.

(** [Object.prototype.toString()]. *)
Definition Object_prototype_toString : string := "[object Object]".

(** [v === s] for a string [s]: only that very string is strictly equal
    to it. *)
Definition strictEquals (v : JsValue) (s : string) : bool :=
  match v with
  | JsString s' => String.eqb s' s
  | _ => false
  end.

(** The [try { return JSON.stringify(data, null, 2); }
         catch { return util.inspect(data, ...); }] of [safeStringify]:
    nothing catches what [util.inspect] throws. *)
Definition dump (data : Payload) : Completion JsValue :=
  match stringify data with
  | Stringified s => Normal (JsString s)
  | StringifiedUndefined => Normal JsUndefined
  | StringifyThrows =>
      match inspect data with
      | Normal s => Normal (JsString s)
      | Throws => Throws
      end
  end.

(** The private method [safeStringify].  The call [data.toString()] is
    outside the [try]: when it throws, so does the method; what it returns
    is returned unchecked unless it is the default rendering. *)
Definition safeStringify (data : Payload) : Completion JsValue :=
  if truthy data && String.eqb (type data) "object" then
    match toString data with
    | ToStringThrows => Throws
    | ToStringReturns nativeStringified =>
        if negb (strictEquals nativeStringified Object_prototype_toString)
        then Normal nativeStringified
        else dump data
    end
  else dump data.

(** The state of a [DomainError] instance: the one field the class
    declares, [message], holding whatever [safeStringify] returned. *)
Record DomainError : Type := { message : JsValue }.

(** [constructor(data: unknown) { super(); this.message = this.safeStringify(data); }] *)
Definition new_DomainError (data : Payload) : Completion DomainError :=
  match safeStringify data with
  | Normal m => Normal {| message := m |}
  | Throws => Throws
  end.

(** The constructor returns whenever [toString] and [util.inspect], if
    called, return. *)
Definition new_DomainError_returns (data : Payload) (v : JsValue)
  (s : string) :
  toString data = ToStringReturns v ->
  inspect data = Normal s ->
  returns (new_DomainError data).
Proof.
  intros H Hi. unfold new_DomainError, safeStringify, dump. rewrite H, Hi.
  destruct (truthy data && String.eqb (type data) "object");
    [destruct (negb (strictEquals v Object_prototype_toString)) | ];
    try exact I; destruct (stringify data); exact I.
Defined.

(** *** Error objects as payloads

    A genuine [Error] instance, as a rejected database call hands over:
    its [name] and [message], and how [JSON.stringify] and [util.inspect]
    render it (its own enumerable properties and its stack, which are not
    modelled further). *)
Record JsError : Type := {
  error_name : string;
  error_message : string;
  error_stringify : StringifyOutcome;
  error_inspect : string
}.

(** [Error.prototype.toString]: the name alone, the message alone, or
    [name + ": " + message]. *)
Definition Error_prototype_toString (e : JsError) : string :=
  if String.eqb (error_name e) "" then error_message e
  else if String.eqb (error_message e) "" then error_name e
  else error_name e ++ ": " ++ error_message e.

(** An [Error] is a truthy object whose [toString] is the built-in one. *)
Definition payload_of_error (e : JsError) : Payload :=
  {| truthy := true;
     type := "object";
     toString := ToStringReturns (JsString (Error_prototype_toString e));
     stringify := error_stringify e;
     inspect := Normal (error_inspect e) |}.

(** ** src/core/email.ts, src/core/user.ts, src/core/account.ts *)

(** [Newtype<{ readonly Email: unique symbol }, string>]. *)
Inductive Email : Type := mkEmail (s : string).

(** [iso<Email>()]: both directions are the identity at run time. *)
Module isoEmail.
Definition wrap (s : string) : Email := mkEmail s.
Definition unwrap (e : Email) : string := match e with mkEmail s => s end.
End isoEmail.

(** [UUID] is a branded string: the brand exists for the type checker
    only, and the sources cast string literals to it ([as UUID]). *)
Definition UUID : Type := string.

Inductive UserId : Type := mkUserId (u : UUID).

Module isoUserId.
Definition wrap (u : UUID) : UserId := mkUserId u.
Definition unwrap (i : UserId) : UUID := match i with mkUserId u => u end.
End isoUserId.

Inductive AccountId : Type := mkAccountId (u : UUID).

Module isoAccountId.
Definition wrap (u : UUID) : AccountId := mkAccountId u.
Definition unwrap (i : AccountId) : UUID := match i with mkAccountId u => u end.
End isoAccountId.

Record User : Type := {
  firstName : string;
  lastName : string;
  id : UserId;
  email : Email
}.

Record Account : Type := {
  accountId : AccountId;
  ownerId : UserId
}.

(** ** io-ts codecs

    A validation error records the rejected value and the path of property
    keys that leads to it (io-ts also stores the codec of every step of the
    path; that part is left out). *)

Record ValidationError : Type := {
  ve_value : JsValue;
  ve_context : list string
}.

Definition Errors : Type := list ValidationError.

Definition Validation (A : Type) : Type := Either Errors A.

Definition Context : Type := list string.

Module t.

Definition success {A} (a : A) : Validation A := Right a.

Definition failure {A} (u : JsValue) (c : Context) : Validation A :=
  Left [ {| ve_value := u; ve_context := c |} ].

(** [t.string]: [typeof u === "string" ? t.success(u) : t.failure(u, c)]. *)
Definition string_validate (u : JsValue) (c : Context) : Validation string :=
  match u with
  | JsString s => success s
  | _ => failure u c
  end.

(** The errors of one property, for [t.type]'s accumulation. *)
Definition errorsOf {A} (v : Validation A) : Errors :=
  match v with
  | Left es => es
  | Right _ => []
  end.

End t.

(** [Email = fromNewtype<Email>(t.string)]: [fromNewtype(codec)] validates
    with [codec] and maps [iso.wrap] over the result; [decode u] is
    [validate u] at the root context. *)

Definition Email_validate (u : JsValue) (c : Context) : Validation Email :=
  E.map isoEmail.wrap (t.string_validate u c).

Definition Email_decode (u : JsValue) : Validation Email :=
  Email_validate u [""].

(** *** The codecs of src/core

    io-ts-types' [UUID] is [t.brand(t.string, s => regex.test(s), "UUID")].
    Its pattern is not part of this repository: the codecs that use it take
    the test [isUUID] as a parameter. *)

Section Codecs.

Variable isUUID : string -> bool.

Definition UUID_validate (u : JsValue) (c : Context) : Validation UUID :=
  match t.string_validate u c with
  | Left es => Left es
  | Right s => if isUUID s then t.success s else t.failure u c
  end.

(** [fromNewtype(codec)] validates with [codec] and maps [iso.wrap] over
    the result; [decode u] is [validate u] at the root context. *)

Definition UserId_validate (u : JsValue) (c : Context) : Validation UserId :=
  E.map isoUserId.wrap (UUID_validate u c).

Definition AccountId_validate (u : JsValue) (c : Context)
  : Validation AccountId :=
  E.map isoAccountId.wrap (UUID_validate u c).

(** [User = t.type({ firstName: t.string, lastName: t.string, id: UserId,
    email: Email })].  [t.type] first requires a plain object, then
    validates every property in declaration order and collects the errors
    of all of them.  When all are valid it succeeds with the input object
    itself, whatever further properties it has (none of these property
    codecs changes the value it validates). *)
Definition User_validate (u : JsValue) (c : Context) : Validation JsValue :=
  match u with
  | JsObject props =>
      let vFirstName :=
        t.string_validate (getProp "firstName" props) (c ++ ["firstName"])%list in
      let vLastName :=
        t.string_validate (getProp "lastName" props) (c ++ ["lastName"])%list in
      let vId := UserId_validate (getProp "id" props) (c ++ ["id"])%list in
      let vEmail := Email_validate (getProp "email" props) (c ++ ["email"])%list in
      match vFirstName, vLastName, vId, vEmail with
      | Right _, Right _, Right _, Right _ => t.success u
      | _, _, _, _ =>
          Left (t.errorsOf vFirstName ++ t.errorsOf vLastName ++
                t.errorsOf vId ++ t.errorsOf vEmail)%list
      end
  | _ => t.failure u c
  end.

Definition User_decode (u : JsValue) : Validation JsValue :=
  User_validate u [""].

(** [Account = t.type({ accountId: AccountId, ownerId: UserId })]. *)
Definition Account_validate (u : JsValue) (c : Context) : Validation JsValue :=
  match u with
  | JsObject props =>
      let vAccountId :=
        AccountId_validate (getProp "accountId" props) (c ++ ["accountId"])%list in
      let vOwnerId :=
        UserId_validate (getProp "ownerId" props) (c ++ ["ownerId"])%list in
      match vAccountId, vOwnerId with
      | Right _, Right _ => t.success u
      | _, _ => Left (t.errorsOf vAccountId ++ t.errorsOf vOwnerId)%list
      end
  | _ => t.failure u c
  end.

End Codecs.

(** [type User = t.TypeOf<typeof User>]: a decoded object seen through its
    static type, which shows its four declared properties.  The record
    [User] is that view; properties the type does not declare are not
    reachable through it and are not part of it. *)
Definition stringOf (v : JsValue) : string :=
  match v with
  | JsString s => s
  | _ => ""
  end.

Definition propsOf (u : JsValue) : list (string * JsValue) :=
  match u with
  | JsObject props => props
  | _ => []
  end.

Definition User_view (u : JsValue) : User :=
  {| firstName := stringOf (getProp "firstName" (propsOf u));
     lastName := stringOf (getProp "lastName" (propsOf u));
     id := isoUserId.wrap (stringOf (getProp "id" (propsOf u)));
     email := isoEmail.wrap (stringOf (getProp "email" (propsOf u))) |}.

(** A concrete test of UUID shape, for the runs on concrete inputs: five
    groups of 8, 4, 4, 4 and 12 hexadecimal digits, in either case,
    separated by dashes. *)
Module HexGroups.

Definition between (lo hi c : ascii) : bool :=
  (nat_of_ascii lo <=? nat_of_ascii c)%nat && (nat_of_ascii c <=? nat_of_ascii hi)%nat.

Definition hex (c : ascii) : bool :=
  between "0" "9" c || between "a" "f" c || between "A" "F" c.

Definition dash (c : ascii) : bool := Ascii.eqb c "-".

Definition pattern : list (ascii -> bool) :=
  (repeat hex 8 ++ [dash] ++ repeat hex 4 ++ [dash] ++
   repeat hex 4 ++ [dash] ++ repeat hex 4 ++ [dash] ++ repeat hex 12)%list.

Fixpoint matches (classes : list (ascii -> bool)) (s : string) : bool :=
  match classes, s with
  | [], EmptyString => true
  | cl :: classes', String c s' => cl c && matches classes' s'
  | _, _ => false
  end.

Definition test (s : string) : bool := matches pattern s.

End HexGroups.

(** An [Errors] array as a [DomainError] payload: a truthy object whose
    [Array.prototype.toString] joins the renderings of its elements, each a
    plain object, with commas.  Its JSON and [util.inspect] renderings
    depend on the codec objects io-ts stores in it and are parameters. *)
Fixpoint joinDefault (n : nat) : string :=
  match n with
  | 0 => ""
  | 1 => Object_prototype_toString
  | S m => Object_prototype_toString ++ "," ++ joinDefault m
  end.

Definition payload_of_Errors
  (stringify_Errors : Errors -> StringifyOutcome)
  (inspect_Errors : Errors -> string) (es : Errors) : Payload :=
  {| truthy := true;
     type := "object";
     toString := ToStringReturns (JsString (joinDefault (length es)));
     stringify := stringify_Errors es;
     inspect := Normal (inspect_Errors es) |}.

(** ** The service contracts

    Each service is an interface with one symbol-keyed property holding its
    operations.  "Any environment that has the property" is a type class on
    the environment type [R]; [createXService] builds the object with that
    one property; the accessor function projects the operations out of the
    environment and calls the operation. *)

(** *** src/services/logging-service.ts *)

Record LoggingServiceOps (W : Type) : Type := {
  LoggingService_log : string -> IO W (Task W unit)
}.

Class LoggingService (W R : Type) : Type :=
  LoggingServiceSymbol : R -> LoggingServiceOps W.

Record LoggingServiceObject (W : Type) : Type := createLoggingService {
  LoggingServiceObject_ops : LoggingServiceOps W
}.

#[global] Instance LoggingServiceObject_LoggingService W
  : LoggingService W (LoggingServiceObject W) :=
  @LoggingServiceObject_ops W.

(** [log = message => service => pipe(message, service[LoggingServiceSymbol].log, TE.fromTask)].
    The error type [never] is rendered by an error type that is left
    open. *)
Definition log {W R E} `{LoggingService W R} (message : string)
  : ReaderTaskEither W R E unit :=
  fun service =>
    task <- LoggingService_log (LoggingServiceSymbol service) message ;;
    ret (TE.fromTask task).

(** *** src/services/user-service.ts

    [UserServiceError] is an abstract class; its two subclasses are
    declared in src/providers/db-user-provider.ts and set [name]. *)

Inductive UserServiceError : Type :=
| UserServiceDbQueryError (base : DomainError)
| UserServiceInvalidDataError (base : DomainError).

(** [new UserServiceDbQueryError(data)]: the inherited constructor, then
    the field initialiser [name = "UserServiceDbQueryError"]. *)
Definition new_UserServiceDbQueryError (data : Payload)
  : Completion UserServiceError :=
  match new_DomainError data with
  | Normal base => Normal (UserServiceDbQueryError base)
  | Throws => Throws
  end.

Definition new_UserServiceInvalidDataError (data : Payload)
  : Completion UserServiceError :=
  match new_DomainError data with
  | Normal base => Normal (UserServiceInvalidDataError base)
  | Throws => Throws
  end.

Definition new_UserServiceDbQueryError_returns (data : Payload) (v : JsValue)
  (s : string) :
  toString data = ToStringReturns v ->
  inspect data = Normal s ->
  returns (new_UserServiceDbQueryError data).
Proof.
  intros H Hi. unfold new_UserServiceDbQueryError.
  pose proof (@new_DomainError_returns data v s H Hi) as Hr.
  destruct (new_DomainError data); [exact I | exact Hr].
Defined.

Definition new_UserServiceInvalidDataError_returns (data : Payload) (v : JsValue)
  (s : string) :
  toString data = ToStringReturns v ->
  inspect data = Normal s ->
  returns (new_UserServiceInvalidDataError data).
Proof.
  intros H Hi. unfold new_UserServiceInvalidDataError.
  pose proof (@new_DomainError_returns data v s H Hi) as Hr.
  destruct (new_DomainError data); [exact I | exact Hr].
Defined.

Definition UserServiceError_name (e : UserServiceError) : string :=
  match e with
  | UserServiceDbQueryError _ => "UserServiceDbQueryError"
  | UserServiceInvalidDataError _ => "UserServiceInvalidDataError"
  end.

Definition UserServiceError_message (e : UserServiceError) : JsValue :=
  match e with
  | UserServiceDbQueryError base => message base
  | UserServiceInvalidDataError base => message base
  end.

Record UserServiceOps (W : Type) : Type := {
  UserService_getUserByEmail :
    Email -> IO W (TaskEither W UserServiceError (option User))
}.

Class UserService (W R : Type) : Type :=
  UserServiceSymbol : R -> UserServiceOps W.

Record UserServiceObject (W : Type) : Type := createUserService {
  UserServiceObject_ops : UserServiceOps W
}.

#[global] Instance UserServiceObject_UserService W
  : UserService W (UserServiceObject W) :=
  @UserServiceObject_ops W.

(** [getUserByEmail = email => service => service[UserServiceSymbol].getUserByEmail(email)]. *)
Definition getUserByEmail {W R} `{UserService W R} (email : Email)
  : ReaderTaskEither W R UserServiceError (option User) :=
  fun service => UserService_getUserByEmail (UserServiceSymbol service) email.

(** *** src/services/account-service.ts *)

Inductive AccountServiceError : Type :=
| mkAccountServiceError (base : DomainError).

Record AccountServiceOps (W : Type) : Type := {
  AccountService_getAccountByOwnerId :
    UserId -> IO W (TaskEither W AccountServiceError (option Account))
}.

Class AccountService (W R : Type) : Type :=
  AccountServiceSymbol : R -> AccountServiceOps W.

Record AccountServiceObject (W : Type) : Type := createAccountService {
  AccountServiceObject_ops : AccountServiceOps W
}.

#[global] Instance AccountServiceObject_AccountService W
  : AccountService W (AccountServiceObject W) :=
  @AccountServiceObject_ops W.

(** [getAccountByOwnerId = ownerId => service => service[AccountServiceSymbol].getAccountByOwnerId(ownerId)]. *)
Definition getAccountByOwnerId {W R} `{AccountService W R} (ownerId : UserId)
  : ReaderTaskEither W R AccountServiceError (option Account) :=
  fun service =>
    AccountService_getAccountByOwnerId (AccountServiceSymbol service) ownerId.

(** *** Merged environments

    [{ ...a, ...b }] has the properties of both objects; where both have a
    property, [b]'s wins. *)

Record Spread (A B : Type) : Type := spread { spread_fst : A; spread_snd : B }.

#[global] Instance Spread_UserService_snd W A B `{UserService W B}
  : UserService W (Spread A B) | 0 :=
  fun r => UserServiceSymbol (spread_snd r).
#[global] Instance Spread_UserService_fst W A B `{UserService W A}
  : UserService W (Spread A B) | 1 :=
  fun r => UserServiceSymbol (spread_fst r).

#[global] Instance Spread_AccountService_snd W A B `{AccountService W B}
  : AccountService W (Spread A B) | 0 :=
  fun r => AccountServiceSymbol (spread_snd r).
#[global] Instance Spread_AccountService_fst W A B `{AccountService W A}
  : AccountService W (Spread A B) | 1 :=
  fun r => AccountServiceSymbol (spread_fst r).

#[global] Instance Spread_LoggingService_snd W A B `{LoggingService W B}
  : LoggingService W (Spread A B) | 0 :=
  fun r => LoggingServiceSymbol (spread_snd r).
#[global] Instance Spread_LoggingService_fst W A B `{LoggingService W A}
  : LoggingService W (Spread A B) | 1 :=
  fun r => LoggingServiceSymbol (spread_fst r).

(** ** src/shell/get-account-by-user-email.ts

    The TypeScript union [UserServiceError | AccountServiceError] is
    untagged: widening an error to it changes nothing at run time.  Here
    the union is a sum and the two widenings are its injections. *)

Inductive ShellError : Type :=
| ofUserServiceError (e : UserServiceError)
| ofAccountServiceError (e : AccountServiceError).

Definition widen {W R E G A} (inj : E -> G) (ma : ReaderTaskEither W R E A)
  : ReaderTaskEither W R G A :=
  RTE.bimap inj (fun a => a) ma.

(** [flow(getUserByEmail,
          RTE.flatMap(flow(O.traverse(RTE.ApplicativePar)(({ id }) => getAccountByOwnerId(id)),
                           RTE.map(O.flatten))))] *)
Definition getAccountByUserEmail {W R} `{UserService W R} `{AccountService W R}
  (email : Email) : ReaderTaskEither W R ShellError (option Account) :=
  RTE.flatMap
    (fun user : option User =>
       RTE.map O.flatten
         (O.traverseRTE
            (fun u => widen ofAccountServiceError (getAccountByOwnerId (id u)))
            user))
    (widen ofUserServiceError (getUserByEmail email)).

(** ** fp-ts/ReadonlyRecord

    A record used as a dictionary.  [RR.lookup] tests
    [Object.prototype.hasOwnProperty], so only own keys are found: a finite
    map. *)

Module RR.

Definition lookup {A} (k : string) (r : gmap string A) : option A := r !! k.

End RR.

(** ** JSON.stringify, as far as the providers use it *)

Module JSON.

Definition hexDigit (n : nat) : string :=
  String (nth n (list_ascii_of_string "0123456789abcdef") "0"%char) "".

(** One code unit of [QuoteJSONString]. *)
Definition quoteChar (c : ascii) : string :=
  let n := nat_of_ascii c in
  if (n =? 8)%nat then "\b"
  else if (n =? 9)%nat then "\t"
  else if (n =? 10)%nat then "\n"
  else if (n =? 12)%nat then "\f"
  else if (n =? 13)%nat then "\r"
  else if (n =? 34)%nat then String "\"%char (String c "")
  else if (n =? 92)%nat then "\\"
  else if (n <? 32)%nat then "\u00" ++ hexDigit (n / 16) ++ hexDigit (n mod 16)
  else String c "".

Fixpoint quoteChars (s : string) : string :=
  match s with
  | EmptyString => ""
  | String c s' => quoteChar c ++ quoteChars s'
  end.

Definition quote : string := String (ascii_of_nat 34) "".

Definition QuoteJSONString (s : string) : string :=
  quote ++ quoteChars s ++ quote.

Definition member (key value : string) : string :=
  QuoteJSONString key ++ ":" ++ value.

(** [JSON.stringify(u)] for a [User] whose properties were written in the
    order of the literal in [HardcodedUserDb]; the newtypes are plain
    strings at run time. *)
Definition stringify_User (u : User) : string :=
  "{" ++ member "firstName" (QuoteJSONString (firstName u)) ++ ","
      ++ member "lastName" (QuoteJSONString (lastName u)) ++ ","
      ++ member "id" (QuoteJSONString (isoUserId.unwrap (id u))) ++ ","
      ++ member "email" (QuoteJSONString (isoEmail.unwrap (email u))) ++ "}".

(** fp-ts represents [some(a)] as [{ _tag: "Some", value: a }] and [none]
    as [{ _tag: "None" }]. *)
Definition stringify_OptionUser (u : option User) : string :=
  match u with
  | None => "{" ++ member "_tag" (QuoteJSONString "None") ++ "}"
  | Some a =>
      "{" ++ member "_tag" (QuoteJSONString "Some") ++ ","
          ++ member "value" (stringify_User a) ++ "}"
  end.

End JSON.

(** ** src/providers/hardcoded-user-provider.ts *)

Module HardcodedUserProvider.

(** The one entry of the hardcoded database. *)
Definition ethan : User :=
  {| firstName := "Ethan";
     lastName := "Kent";
     id := isoUserId.wrap "a2a9a967-10bb-43b9-8230-99ae3a3d161f";
     email := isoEmail.wrap "ekent@mercury.com" |}.

Definition HardcodedUserDb : gmap string User :=
  {[ "ekent@mercury.com" := ethan ]}.

(** [flow(isoEmail.unwrap,
          RTE.of,
          RTE.tap(m => log(`Looking up email \`${m}\``)),
          RTE.map(e => RR.lookup(e)(HardcodedUserDb)),
          RTE.tap(u => log(`Result: ${JSON.stringify(u)}`)))] *)
Definition getUserByEmail {W R E} `{LoggingService W R} (s : Email)
  : ReaderTaskEither W R E (option User) :=
  RTE.tap (fun u => log ("Result: " ++ JSON.stringify_OptionUser u))
    (RTE.map (fun e => RR.lookup e HardcodedUserDb)
       (RTE.tap (fun m => log ("Looking up email `" ++ m ++ "`"))
          (RTE.of_ (isoEmail.unwrap s)))).

(** [deps => createUserService({ getUserByEmail: email => getUserByEmail(email)(deps) })] *)
Definition createHardcodedUserProvider {W R} `{LoggingService W R} (deps : R)
  : UserServiceObject W :=
  createUserService
    {| UserService_getUserByEmail := fun email => getUserByEmail email deps |}.

End HardcodedUserProvider.

(** ** src/providers/hardcoded-account-provider.ts *)

Module HardcodedAccountProvider.

(** The one entry of the hardcoded database. *)
Definition ethansAccount : Account :=
  {| accountId := isoAccountId.wrap "69bdcc3d-95df-4497-a6a7-c529e1b010d6";
     ownerId := isoUserId.wrap "a2a9a967-10bb-43b9-8230-99ae3a3d161f" |}.

Definition HardcodedAccountDb : gmap string Account :=
  {[ "a2a9a967-10bb-43b9-8230-99ae3a3d161f" := ethansAccount ]}.

(** [ownerId => pipe(ownerId, isoUserId.unwrap, e => RR.lookup(e)(HardcodedAccountDb), TE.of)].
    The operation is a pure function: calling it touches nothing. *)
Definition getAccountByOwnerId {W} (ownerId : UserId)
  : IO W (TaskEither W AccountServiceError (option Account)) :=
  ret (TE.of_ (RR.lookup (isoUserId.unwrap ownerId) HardcodedAccountDb)).

Definition HardcodedAccountProvider {W} : AccountServiceObject W :=
  createAccountService
    {| AccountService_getAccountByOwnerId := getAccountByOwnerId |}.

End HardcodedAccountProvider.

(** ** src/providers/console-logging-provider.ts

    The world of this provider is the console: the lines written so far.
    [log: m => () => { console.log(m); return Promise.resolve(void 0); }]:
    calling [log] builds the task; the line is written when the task
    runs. *)

Module ConsoleLoggingProvider.

Definition Console : Type := list string.

Definition console_log (m : string) : IO Console unit :=
  fun out => (tt, (out ++ [m])%list).

Definition ConsoleLoggingProvider : LoggingServiceObject Console :=
  createLoggingService
    {| LoggingService_log := fun m => ret (console_log m) |}.

End ConsoleLoggingProvider.

(** ** src/providers/db-user-provider.ts *)

Module DbUserProvider.

(** sqlite3's [db.get(query, param, callback)]: the call acts on the
    database and hands the callback an error or [null], and a row (or
    [undefined] when no row matches).  The callback's [err] has type
    [Error | null], for which the test [if (err)] is the test for
    non-null. *)
Record Database (W : Type) : Type := {
  Database_get : string -> JsValue -> IO W (option JsError * JsValue)
}.

(** [type GetUserByEmailDeps = { db: Database } & LoggingService]. *)
Record GetUserByEmailDeps (W : Type) : Type := {
  db : Database W;
  logging : LoggingServiceOps W
}.

#[global] Instance GetUserByEmailDeps_LoggingService W
  : LoggingService W (GetUserByEmailDeps W) :=
  @logging W.

Section Provider.

Context {W : Type}.

(** The test of io-ts-types' [UUID], and how [JSON.stringify] and
    [util.inspect] render an io-ts [Errors] array. *)
Variable isUUID : string -> bool.
Variable stringify_Errors : Errors -> StringifyOutcome.
Variable inspect_Errors : Errors -> string.

(** [(query, param) => ({ db }) =>
       TE.tryCatch(() => new Promise((resolve, reject) => {
         db.get(query, param, (err, result) => {
           if (err) { reject(err); } else { resolve(result); } }); }),
       identity)].
    The rejection reason, of static type [unknown], is the [Error] the
    callback received. *)
Definition taskifiedGet (query : string) (param : JsValue)
  : ReaderTaskEither W (GetUserByEmailDeps W) JsError JsValue :=
  fun deps =>
    ret (TE.tryCatch
           (cb <- Database_get (db deps) query param ;;
            ret (let (err, result) := cb in
                 match err with
                 | Some e => Rejected e
                 | None => Resolved result
                 end))
           (fun reason => reason)).

(** [new UserServiceDbQueryError(e)] for the [Error] of a rejected
    [db.get]: the constructor returns, because the built-in [toString] of
    an [Error] does, and so does [util.inspect] on it. *)
Definition queryError (e : JsError) : UserServiceError :=
  returned (new_UserServiceDbQueryError (payload_of_error e))
    (@new_UserServiceDbQueryError_returns (payload_of_error e) _ _ eq_refl
       eq_refl).

(** [new UserServiceInvalidDataError(e)] for the [Errors] of a failed
    decode: the constructor returns, because the built-in [toString] of an
    array does, and so does [util.inspect] on it. *)
Definition invalidDataError (es : Errors) : UserServiceError :=
  returned
    (new_UserServiceInvalidDataError
       (payload_of_Errors stringify_Errors inspect_Errors es))
    (@new_UserServiceInvalidDataError_returns
       (payload_of_Errors stringify_Errors inspect_Errors es) _ _ eq_refl
       eq_refl).

(** [email => pipe(
       log(`Preparing to query for ${email}`),
       RT.map(E.of),
       RTE.flatMap(() => taskifiedGet("SELECT * FROM users WHERE email = ?", [email])),
       RTE.bimap(e => new UserServiceDbQueryError(e), O.fromNullable),
       RTE.flatMapEither(O.traverse(E.Applicative)(
         flow(User.decode, E.mapLeft(e => new UserServiceInvalidDataError(e))))))].
    The declared result type [O.Option<User>] is rendered by [User_view]
    on the object [User.decode] returns. *)
Definition getUserByEmail (email : Email)
  : ReaderTaskEither W (GetUserByEmailDeps W) UserServiceError (option User) :=
  RTE.flatMapEither
    (O.traverseE
       (fun row =>
          E.map User_view
            (E.mapLeft (fun e => invalidDataError e)
               (User_decode isUUID row))))
    (RTE.bimap (fun e => queryError e) O.fromNullable
       (RTE.flatMap
          (fun _ : Either Empty_set unit =>
             taskifiedGet "SELECT * FROM users WHERE email = ?"
               (JsArray [JsString (isoEmail.unwrap email)]))
          (RT.map E.of_
             (log (E := Empty_set)
                ("Preparing to query for " ++ isoEmail.unwrap email))))).

(** [deps => createUserService({ getUserByEmail: email => getUserByEmail(email)(deps) })] *)
Definition createDbUserProvider (deps : GetUserByEmailDeps W)
  : UserServiceObject W :=
  createUserService
    {| UserService_getUserByEmail := fun email => getUserByEmail email deps |}.

End Provider.

End DbUserProvider.

(** ** jest mocks

    The specs observe collaborators through [jest.fn]: a mock records the
    arguments of every call, then behaves as its implementation.  The
    world of a mocked run is the world of the implementations together
    with the record of calls, in the order they were made. *)

Module jest.

Inductive Call : Type :=
| getUserByEmailCall (email : Email)
| getAccountByOwnerIdCall (ownerId : UserId)
| logCall (message : string)
| dbGetCall (query : string) (param : JsValue).

Record Mocked (S : Type) : Type := {
  world : S;
  calls : list Call
}.

(** An action of the implementation leaves the record of calls alone. *)
Definition lift {S A} (m : IO S A) : IO (Mocked S) A :=
  fun w =>
    let (a, s) := m (world w) in (a, {| world := s; calls := calls w |}).

Definition record {S} (c : Call) : IO (Mocked S) unit :=
  fun w => (tt, {| world := world w; calls := (calls w ++ [c])%list |}).

(** [jest.fn(impl)] for an operation that returns a task. *)
Definition fn {S A B} (call : A -> Call) (impl : A -> IO S (Task S B))
  : A -> IO (Mocked S) (Task (Mocked S) B) :=
  fun a =>
    _ <- record (call a) ;;
    task <- lift (impl a) ;;
    ret (lift task).

(** [jest.fn().mockReturnValue(value)], before the recording: every call
    returns [value]. *)
Definition mockReturnValue {S A B} (value : B) : A -> IO S B :=
  fun _ => ret value.

(** The environment of get-account-by-user-email.spec.ts,
    [{ ...mockAccountProvider, ...mockUserProvider }], with the operations
    of [deps] as the implementations of the two mocks. *)
Definition mockDeps {S R} `{UserService S R} `{AccountService S R} (deps : R)
  : Spread (AccountServiceObject (Mocked S)) (UserServiceObject (Mocked S)) :=
  spread
    (createAccountService
       {| AccountService_getAccountByOwnerId :=
            fn getAccountByOwnerIdCall
               (AccountService_getAccountByOwnerId (AccountServiceSymbol deps)) |})
    (createUserService
       {| UserService_getUserByEmail :=
            fn getUserByEmailCall
               (UserService_getUserByEmail (UserServiceSymbol deps)) |}).

(** [createLoggingService({ log: mockLog })], with the [log] of [deps] as
    the implementation of the mock. *)
Definition mockLoggingService {S R} `{LoggingService S R} (deps : R)
  : LoggingServiceObject (Mocked S) :=
  createLoggingService
    {| LoggingService_log :=
         fn logCall (LoggingService_log (LoggingServiceSymbol deps)) |}.

(** A database whose [get] is a mock around the [get] of [database]. *)
Definition mockDb {S} (database : DbUserProvider.Database S)
  : DbUserProvider.Database (Mocked S) :=
  {| DbUserProvider.Database_get := fun query param =>
       _ <- record (dbGetCall query param) ;;
       lift (DbUserProvider.Database_get database query param) |}.

End jest.

(** ** Fixtures of the spec files *)

Module Fixtures.

(** get-account-by-user-email.spec.ts, [getTestMocks]: the user and the
    account the two mocks return. *)
Definition testUser : User :=
  {| firstName := "testFirstName";
     lastName := "testLastName";
     id := isoUserId.wrap "testUserId1";
     email := isoEmail.wrap "testEmail" |}.

Definition testAccount : Account :=
  {| accountId := isoAccountId.wrap "testAccountId";
     ownerId := isoUserId.wrap "testUserId2" |}.

(** [{ ...createAccountService({ getAccountByOwnerId: jest.fn().mockReturnValue(account) }),
       ...createUserService({ getUserByEmail: jest.fn().mockReturnValue(user) }) }],
    in a world with nothing in it. *)
Definition depsReturning
  (user : TaskEither unit UserServiceError (option User))
  (account : TaskEither unit AccountServiceError (option Account))
  : Spread (AccountServiceObject unit) (UserServiceObject unit) :=
  spread
    (createAccountService
       {| AccountService_getAccountByOwnerId := jest.mockReturnValue account |})
    (createUserService
       {| UserService_getUserByEmail := jest.mockReturnValue user |}).

(** [new Error(message)], whose [util.inspect] rendering is its stack.  It
    has no enumerable property of its own. *)
Definition Error_ (message stack : string) : JsError :=
  {| error_name := "Error";
     error_message := message;
     error_stringify := Stringified "{}";
     error_inspect := stack |}.

(** db-user-provider.spec.ts, [createTestDeps(mockUser, error)]: [db.get]
    calls back with [(error, null)] when there is an error and with
    [(null, mockUser)] otherwise; [log] resolves at once. *)
Definition createTestDeps (mockUser : JsValue) (error : option JsError)
  : DbUserProvider.GetUserByEmailDeps unit :=
  {| DbUserProvider.db :=
       {| DbUserProvider.Database_get := fun _ _ =>
            ret match error with
                | Some e => (Some e, JsNull)
                | None => (None, mockUser)
                end |};
     DbUserProvider.logging :=
       {| LoggingService_log := fun _ => ret (ret tt) |} |}.

(** No rendering of io-ts errors: for runs that never decode a row. *)
Definition noStringify : Errors -> StringifyOutcome :=
  fun _ => StringifiedUndefined.
Definition noInspect : Errors -> string := fun _ => "".

(** The composition root of src/index.ts with the hardcoded user provider
    and console logging:
    [{ ...createHardcodedUserProvider(ConsoleLoggingProvider), ...HardcodedAccountProvider }]. *)
Definition hardcodedDeps
  : Spread (UserServiceObject ConsoleLoggingProvider.Console)
           (AccountServiceObject ConsoleLoggingProvider.Console) :=
  spread
    (HardcodedUserProvider.createHardcodedUserProvider
       ConsoleLoggingProvider.ConsoleLoggingProvider)
    HardcodedAccountProvider.HardcodedAccountProvider.



End Fixtures.

(** ** Operations that are pure functions of their input

    The result of calling the operation and running the task it returns is
    the same in every world: it is determined by the argument alone. *)

Definition pureOperation {S A B} (op : A -> IO S (Task S B)) : Prop :=
  forall (a : A) (s s' : S),
    fst ((task <- op a ;; task) s) = fst ((task <- op a ;; task) s').

(** ** Fixtures of db-user-provider.spec.ts *)

Module DbSpec.

(** [{ ...createLoggingService({ log: logSpy }), db: { get: dbSpy } }], with
    the [log] and the [db.get] of [deps] as the implementations of the two
    mocks. *)
Definition mockDeps {S} (deps : DbUserProvider.GetUserByEmailDeps S)
  : DbUserProvider.GetUserByEmailDeps (jest.Mocked S) :=
  {| DbUserProvider.db := jest.mockDb (DbUserProvider.db deps);
     DbUserProvider.logging :=
       {| LoggingService_log :=
            jest.fn jest.logCall
              (LoggingService_log (DbUserProvider.logging deps)) |} |}.

(** A row holding exactly the four properties of a user (the newtypes
    are plain strings at run time), in the order of the spec's
    [mockUser]. *)
Definition rowOfUser (u : User) : JsValue :=
  JsObject
    [("id", JsString (isoUserId.unwrap (id u)));
     ("email", JsString (isoEmail.unwrap (email u)));
     ("firstName", JsString (firstName u));
     ("lastName", JsString (lastName u))].

(** An object holding exactly the two properties of an account. *)
Definition rowOfAccount (a : Account) : JsValue :=
  JsObject
    [("accountId", JsString (isoAccountId.unwrap (accountId a)));
     ("ownerId", JsString (isoUserId.unwrap (ownerId a)))].

(** The query the provider issues and its parameter array. *)
Definition query : string := "SELECT * FROM users WHERE email = ?".

Definition params (email : Email) : JsValue :=
  JsArray [JsString (isoEmail.unwrap email)].

Definition preparing (email : Email) : string :=
  "Preparing to query for " ++ isoEmail.unwrap email.

End DbSpec.

(* ===================================================================== *)
(** * Part II.  Properties                                                 *)
(* ===================================================================== *)

Unset Implicit Arguments.

(** ** Unfolding the effect stack *)

Create HintDb effects.

#[export] Hint Unfold RTE.run RTE.flatMap RTE.flatMapEither RTE.fromEither
  RTE.tap RTE.map RTE.bimap RTE.of_ RT.map widen O.traverseRTE
  TE.flatMap TE.map TE.of_ TE.fromTask TE.tryCatch
  T.flatMap T.map T.of_ bind ret : effects.

Ltac unfold_effects := repeat autounfold with effects in *; cbn beta in *.

(** ** Running the combinators

    One equation per combinator: what [RTE.run] does on it, in terms of
    the runs of its parts. *)

Section Running.

Context {W R : Type}.

Lemma run_of {E A} (a : A) (r : R) (w : W) :
  RTE.run (RTE.of_ (E := E) a) r w = (Right a, w).
Proof. reflexivity. Qed.

Lemma run_map {E A B} (f : A -> B) (fa : ReaderTaskEither W R E A) (r : R)
  (w : W) :
  RTE.run (RTE.map f fa) r w =
  let (e, w1) := RTE.run fa r w in (E.map f e, w1).
Proof.
  unfold_effects. destruct (fa r w) as [task w0].
  destruct (task w0) as [e w1]. reflexivity.
Qed.

Lemma run_bimap {E G A B} (f : E -> G) (g : A -> B)
  (fa : ReaderTaskEither W R E A) (r : R) (w : W) :
  RTE.run (RTE.bimap f g fa) r w =
  let (e, w1) := RTE.run fa r w in (E.bimap f g e, w1).
Proof.
  unfold_effects. destruct (fa r w) as [task w0].
  destruct (task w0) as [e w1]. reflexivity.
Qed.

Lemma run_RT_map {A B} (f : A -> B) (fa : ReaderTask W R A) (r : R) (w : W) :
  (task <- RT.map f fa r ;; task) w =
  let (a, w1) := (task <- fa r ;; task) w in (f a, w1).
Proof.
  unfold_effects. destruct (fa r w) as [task w0].
  destruct (task w0) as [a w1]. reflexivity.
Qed.

(** A left ends the run: the continuation is neither called nor run. *)
Lemma run_flatMap {E A B} (f : A -> ReaderTaskEither W R E B)
  (ma : ReaderTaskEither W R E A) (r : R) (w : W) :
  RTE.run (RTE.flatMap f ma) r w =
  let (e, w1) := RTE.run ma r w in
  match e with
  | Left l => (Left l, w1)
  | Right a => RTE.run (f a) r w1
  end.
Proof.
  unfold_effects. destruct (ma r w) as [task w0].
  destruct (task w0) as [[l | a] w1]; reflexivity.
Qed.

Lemma run_flatMapEither {E A B} (f : A -> Either E B)
  (ma : ReaderTaskEither W R E A) (r : R) (w : W) :
  RTE.run (RTE.flatMapEither f ma) r w =
  let (e, w1) := RTE.run ma r w in
  match e with
  | Left l => (Left l, w1)
  | Right a => (f a, w1)
  end.
Proof.
  unfold RTE.flatMapEither. rewrite run_flatMap.
  destruct (RTE.run ma r w) as [[l | a] w1]; reflexivity.
Qed.

(** [tap] runs the side computation and keeps the original value. *)
Lemma run_tap {E A B} (f : A -> ReaderTaskEither W R E B)
  (ma : ReaderTaskEither W R E A) (r : R) (w : W) :
  RTE.run (RTE.tap f ma) r w =
  let (e, w1) := RTE.run ma r w in
  match e with
  | Left l => (Left l, w1)
  | Right a =>
      let (e', w2) := RTE.run (f a) r w1 in (E.map (fun _ => a) e', w2)
  end.
Proof.
  unfold RTE.tap. rewrite run_flatMap.
  destruct (RTE.run ma r w) as [[l | a] w1]; [reflexivity | ].
  apply run_map.
Qed.

(** The accessor [log] never fails. *)
Lemma run_log {E} `{LoggingService W R} (message : string) (deps : R)
  (w : W) :
  RTE.run (log (E := E) message) deps w =
  (Right tt, snd (RTE.run (log (E := E) message) deps w)).
Proof.
  unfold log. unfold_effects.
  destruct (LoggingService_log (LoggingServiceSymbol deps) message w)
    as [task w0].
  destruct (task w0) as [[] w1]. reflexivity.
Qed.

End Running.

(** ** The shell: what one run of [getAccountByUserEmail] does *)

Section Shell.

Context {W R : Type} `{HU : UserService W R} `{HA : AccountService W R}.

(** The run of the shell, step by step: the user lookup; nothing more on a
    failure or an absent user; otherwise the account lookup for the user's
    id, started in the world the user lookup left. *)
Lemma run_getAccountByUserEmail (email : Email) (deps : R) (w : W) :
  RTE.run (getAccountByUserEmail email) deps w =
  let (user, w1) := RTE.run (getUserByEmail email) deps w in
  match user with
  | Left e => (Left (ofUserServiceError e), w1)
  | Right None => (Right None, w1)
  | Right (Some u) =>
      let (account, w2) := RTE.run (getAccountByOwnerId (id u)) deps w1 in
      (E.mapLeft ofAccountServiceError account, w2)
  end.
Proof.
  unfold getAccountByUserEmail, getUserByEmail, getAccountByOwnerId.
  unfold_effects.
  destruct (UserService_getUserByEmail (UserServiceSymbol deps) email w)
    as [task w0].
  destruct (task w0) as [[e | [u | ]] w1]; simpl; try reflexivity.
  destruct (AccountService_getAccountByOwnerId (AccountServiceSymbol deps)
              (id u) w1) as [task' w1'].
  destruct (task' w1') as [[e | a] w2]; reflexivity.
Qed.

End Shell.

(** ** The shell under jest mocks *)

Section MockedShell.

Context {S R : Type} `{HU : UserService S R} `{HA : AccountService S R}.

Lemma run_mocked_getUserByEmail (email : Email) (deps : R) (s : S)
  (l : list jest.Call) :
  RTE.run (getUserByEmail email) (jest.mockDeps deps)
    {| jest.world := s; jest.calls := l |} =
  let (user, s1) := RTE.run (getUserByEmail email) deps s in
  (user, {| jest.world := s1;
            jest.calls := (l ++ [jest.getUserByEmailCall email])%list |}).
Proof.
  unfold getUserByEmail, jest.mockDeps, jest.fn, jest.record, jest.lift.
  unfold_effects. cbn.
  destruct (UserService_getUserByEmail (UserServiceSymbol deps) email s)
    as [task s0].
  cbn. destruct (task s0) as [user s1]. reflexivity.
Qed.

Lemma run_mocked_getAccountByOwnerId (ownerId : UserId) (deps : R) (s : S)
  (l : list jest.Call) :
  RTE.run (getAccountByOwnerId ownerId) (jest.mockDeps deps)
    {| jest.world := s; jest.calls := l |} =
  let (account, s1) := RTE.run (getAccountByOwnerId ownerId) deps s in
  (account, {| jest.world := s1;
               jest.calls := (l ++ [jest.getAccountByOwnerIdCall ownerId])%list |}).
Proof.
  unfold getAccountByOwnerId, jest.mockDeps, jest.fn, jest.record, jest.lift.
  unfold_effects. cbn.
  destruct (AccountService_getAccountByOwnerId (AccountServiceSymbol deps)
              ownerId s) as [task s0].
  cbn. destruct (task s0) as [account s1]. reflexivity.
Qed.

(** C1.  When the user lookup succeeds with an absent user, the shell
    succeeds with an absent account, and the mocks have recorded the user
    lookup and nothing else: [getAccountByOwnerId] was not called. *)
Theorem absent_user_skips_account_lookup (email : Email) (deps : R)
  (s s1 : S) :
  RTE.run (getUserByEmail email) deps s = (Right None, s1) ->
  RTE.run (getAccountByUserEmail email) deps s = (Right None, s1) /\
  RTE.run (getAccountByUserEmail email) (jest.mockDeps deps)
    {| jest.world := s; jest.calls := [] |} =
  (Right None,
   {| jest.world := s1; jest.calls := [jest.getUserByEmailCall email] |}).
Proof.
  intros Huser. split.
  - rewrite run_getAccountByUserEmail, Huser. reflexivity.
  - rewrite run_getAccountByUserEmail, run_mocked_getUserByEmail, Huser.
    reflexivity.
Qed.

(** C2.  When the user lookup fails with an error, the shell fails with
    that same error (widened to the union of the two services' errors), and
    the mocks have recorded the user lookup and nothing else:
    [getAccountByOwnerId] was not called. *)
Theorem failed_user_lookup_propagates (email : Email) (deps : R)
  (e : UserServiceError) (s s1 : S) :
  RTE.run (getUserByEmail email) deps s = (Left e, s1) ->
  RTE.run (getAccountByUserEmail email) deps s =
    (Left (ofUserServiceError e), s1) /\
  RTE.run (getAccountByUserEmail email) (jest.mockDeps deps)
    {| jest.world := s; jest.calls := [] |} =
  (Left (ofUserServiceError e),
   {| jest.world := s1; jest.calls := [jest.getUserByEmailCall email] |}).
Proof.
  intros Huser. split.
  - rewrite run_getAccountByUserEmail, Huser. reflexivity.
  - rewrite run_getAccountByUserEmail, run_mocked_getUserByEmail, Huser.
    reflexivity.
Qed.

(** C3.  When the user lookup finds a user [u] and the account lookup for
    [u]'s id finds an account [a], the shell succeeds with [a] wrapped
    present, and the mocks have recorded exactly two calls: the user lookup
    with the email, then [getAccountByOwnerId] with [u]'s id. *)
Theorem present_user_and_account (email : Email) (deps : R) (u : User)
  (a : Account) (s s1 s2 : S) :
  RTE.run (getUserByEmail email) deps s = (Right (Some u), s1) ->
  RTE.run (getAccountByOwnerId (id u)) deps s1 = (Right (Some a), s2) ->
  RTE.run (getAccountByUserEmail email) deps s = (Right (Some a), s2) /\
  RTE.run (getAccountByUserEmail email) (jest.mockDeps deps)
    {| jest.world := s; jest.calls := [] |} =
  (Right (Some a),
   {| jest.world := s2;
      jest.calls := [jest.getUserByEmailCall email;
                     jest.getAccountByOwnerIdCall (id u)] |}).
Proof.
  intros Huser Haccount. split.
  - rewrite run_getAccountByUserEmail, Huser, Haccount. reflexivity.
  - rewrite run_getAccountByUserEmail, run_mocked_getUserByEmail, Huser.
    rewrite run_mocked_getAccountByOwnerId, Haccount. reflexivity.
Qed.

End MockedShell.

(** C4.  When the user lookup finds a user [u] but the account lookup for
    [u]'s id succeeds with an absent account, the shell succeeds with an
    absent account; and that result is the very value the shell produces,
    in any environment, when the user lookup itself finds nobody. *)
Theorem absent_account_same_as_absent_user
  {S R : Type} `{HU : UserService S R} `{HA : AccountService S R}
  {S' R' : Type} `{HU' : UserService S' R'} `{HA' : AccountService S' R'}
  (email : Email) (deps : R) (u : User) (s s1 s2 : S)
  (email' : Email) (deps' : R') (t t1 : S') :
  RTE.run (getUserByEmail email) deps s = (Right (Some u), s1) ->
  RTE.run (getAccountByOwnerId (id u)) deps s1 = (Right None, s2) ->
  RTE.run (getUserByEmail email') deps' t = (Right None, t1) ->
  RTE.run (getAccountByUserEmail email) deps s = (Right None, s2) /\
  fst (RTE.run (getAccountByUserEmail email) deps s) =
  fst (RTE.run (getAccountByUserEmail email') deps' t).
Proof.
  intros Huser Haccount Huser'.
  rewrite !run_getAccountByUserEmail, Huser, Haccount, Huser'.
  split; reflexivity.
Qed.

(** ** Determinism *)

Section Determinism.

Context {S R : Type} `{HU : UserService S R} `{HA : AccountService S R}.

Variable deps : R.

Hypothesis pure_getUserByEmail :
  pureOperation (UserService_getUserByEmail (UserServiceSymbol deps)).
Hypothesis pure_getAccountByOwnerId :
  pureOperation (AccountService_getAccountByOwnerId (AccountServiceSymbol deps)).

(** With pure collaborators the outcome of the shell does not depend on
    the world it starts in. *)
Lemma getAccountByUserEmail_world_independent (email : Email) (s s' : S) :
  fst (RTE.run (getAccountByUserEmail email) deps s) =
  fst (RTE.run (getAccountByUserEmail email) deps s').
Proof using pure_getUserByEmail pure_getAccountByOwnerId.
  rewrite !run_getAccountByUserEmail.
  pose proof (pure_getUserByEmail email s s') as Hu.
  change (fst (RTE.run (getUserByEmail email) deps s) =
          fst (RTE.run (getUserByEmail email) deps s')) in Hu.
  destruct (RTE.run (getUserByEmail email) deps s) as [user s1].
  destruct (RTE.run (getUserByEmail email) deps s') as [user' s1'].
  cbn in Hu. subst user'.
  destruct user as [e | [u | ]]; try reflexivity.
  pose proof (pure_getAccountByOwnerId (id u) s1 s1') as Ha.
  change (fst (RTE.run (getAccountByOwnerId (id u)) deps s1) =
          fst (RTE.run (getAccountByOwnerId (id u)) deps s1')) in Ha.
  destruct (RTE.run (getAccountByOwnerId (id u)) deps s1) as [account s2].
  destruct (RTE.run (getAccountByOwnerId (id u)) deps s1') as [account' s2'].
  cbn in Ha. subst account'. reflexivity.
Qed.

(** C7.  Two invocations of the shell with the same email and the same
    environment, the second started in the world the first one left, yield
    the same result when both collaborators are pure functions of their
    input. *)
Theorem getAccountByUserEmail_twice_same_result (email : Email) (s : S) :
  let first := RTE.run (getAccountByUserEmail email) deps s in
  let second := RTE.run (getAccountByUserEmail email) deps (snd first) in
  fst first = fst second.
Proof using pure_getUserByEmail pure_getAccountByOwnerId.
  cbv zeta. apply getAccountByUserEmail_world_independent.
Qed.

End Determinism.

(** ** The database-backed user provider *)

(** What the constructors make of the payloads the provider gives them. *)
Lemma queryError_eq (e : JsError) :
  DbUserProvider.queryError e =
  UserServiceDbQueryError
    {| message :=
         if String.eqb (Error_prototype_toString e) Object_prototype_toString
         then match error_stringify e with
              | Stringified s => JsString s
              | StringifiedUndefined => JsUndefined
              | StringifyThrows => JsString (error_inspect e)
              end
         else JsString (Error_prototype_toString e) |}.
Proof.
  unfold DbUserProvider.queryError.
  generalize (@new_UserServiceDbQueryError_returns (payload_of_error e) _ _
                eq_refl eq_refl).
  unfold new_UserServiceDbQueryError, new_DomainError, safeStringify, dump.
  cbn.
  destruct (String.eqb (Error_prototype_toString e) Object_prototype_toString);
    cbn; [destruct (error_stringify e) | ]; intros Hreturns; reflexivity.
Qed.

Lemma invalidDataError_eq (stringify_Errors : Errors -> StringifyOutcome)
  (inspect_Errors : Errors -> string) (es : Errors) :
  DbUserProvider.invalidDataError stringify_Errors inspect_Errors es =
  UserServiceInvalidDataError
    {| message :=
         if String.eqb (joinDefault (length es)) Object_prototype_toString
         then match stringify_Errors es with
              | Stringified s => JsString s
              | StringifiedUndefined => JsUndefined
              | StringifyThrows => JsString (inspect_Errors es)
              end
         else JsString (joinDefault (length es)) |}.
Proof.
  unfold DbUserProvider.invalidDataError.
  generalize (@new_UserServiceInvalidDataError_returns
                (payload_of_Errors stringify_Errors inspect_Errors es) _ _
                eq_refl eq_refl).
  unfold new_UserServiceInvalidDataError, new_DomainError, safeStringify,
    dump.
  cbn.
  destruct (String.eqb (joinDefault (length es)) Object_prototype_toString);
    cbn; [destruct (stringify_Errors es) | ]; intros Hreturns; reflexivity.
Qed.

Section DbFailure.

Context {W : Type}.

Variable isUUID : string -> bool.
Variable stringify_Errors : Errors -> StringifyOutcome.
Variable inspect_Errors : Errors -> string.

(** C5 (as amended).  When the [db.get] call made by the provider reports
    an error [e] (the callback receives a non-null error, so the promise
    rejects), the lookup through the provider returns a failure that is
    the [UserServiceDbQueryError] the constructor builds from [e].  Of [e]
    it keeps a message only: the text of [Error.prototype.toString] (the
    name, the message, or [name: message]), or, when that text is the
    default rendering, the [JSON.stringify] dump with its [util.inspect]
    fallback. *)
Theorem db_error_becomes_query_error (email : Email)
  (deps : DbUserProvider.GetUserByEmailDeps W) (e : JsError) (row : JsValue)
  (w w2 : W) :
  let w1 :=
    snd (RTE.run
           (log (E := Empty_set)
              ("Preparing to query for " ++ isoEmail.unwrap email)) deps w) in
  DbUserProvider.Database_get (DbUserProvider.db deps)
    "SELECT * FROM users WHERE email = ?"
    (JsArray [JsString (isoEmail.unwrap email)]) w1 = ((Some e, row), w2) ->
  let rendering :=
    if String.eqb (error_name e) "" then error_message e
    else if String.eqb (error_message e) "" then error_name e
    else error_name e ++ ": " ++ error_message e in
  let failure :=
    UserServiceDbQueryError
      {| message :=
           if String.eqb rendering "[object Object]"
           then match error_stringify e with
                | Stringified s => JsString s
                | StringifiedUndefined => JsUndefined
                | StringifyThrows => JsString (error_inspect e)
                end
           else JsString rendering |} in
  RTE.run (getUserByEmail email)
    (DbUserProvider.createDbUserProvider isUUID stringify_Errors
       inspect_Errors deps) w = (Left failure, w2) /\
  new_UserServiceDbQueryError (payload_of_error e) = Normal failure /\
  UserServiceError_name failure = "UserServiceDbQueryError".
Proof.
  cbv zeta. intros Hget.
  split; [ | split; [ | reflexivity]].
  - assert (RTE.run (getUserByEmail email)
              (DbUserProvider.createDbUserProvider isUUID stringify_Errors
                 inspect_Errors deps) w =
            (Left (DbUserProvider.queryError e), w2)) as Hrun.
    { unfold getUserByEmail, DbUserProvider.createDbUserProvider,
        UserServiceSymbol, UserServiceObject_UserService.
      unfold DbUserProvider.getUserByEmail, DbUserProvider.taskifiedGet.
      revert Hget. unfold log. unfold_effects.
      unfold LoggingServiceSymbol,
        DbUserProvider.GetUserByEmailDeps_LoggingService.
      cbn [UserServiceObject_ops UserService_getUserByEmail].
      destruct (LoggingService_log (DbUserProvider.logging deps)
                  ("Preparing to query for " ++ isoEmail.unwrap email) w)
        as [task w0].
      destruct (task w0) as [[] w1]. cbn.
      intros ->. reflexivity. }
    rewrite Hrun, queryError_eq. reflexivity.
  - unfold new_UserServiceDbQueryError, new_DomainError, safeStringify,
      payload_of_error, Error_prototype_toString, Object_prototype_toString,
      strictEquals, dump.
    cbn [truthy type toString stringify inspect andb String.eqb negb].
    change (String.eqb "object" "object") with true. cbn [andb].
    match goal with
    | |- context [String.eqb ?x "[object Object]"] =>
        destruct (String.eqb x "[object Object]")
    end; cbn [negb]; [destruct (error_stringify e) | ]; reflexivity.
Qed.

End DbFailure.

(** For an [Error] with a name and a message the failure's message is
    [name: message]. *)
Lemma query_error_message (e : JsError) :
  error_name e <> "" ->
  error_message e <> "" ->
  error_name e ++ ": " ++ error_message e <> Object_prototype_toString ->
  UserServiceError_message (DbUserProvider.queryError e) =
  JsString (error_name e ++ ": " ++ error_message e).
Proof.
  intros Hname Hmessage Hrender. rewrite queryError_eq.
  unfold Error_prototype_toString. cbn.
  apply String.eqb_neq in Hname, Hmessage, Hrender.
  rewrite Hname, Hmessage, Hrender. reflexivity.
Qed.

(** ** DomainError *)


(** The two halves of the amended statement, as implications. *)
Lemma DomainError_message_object (data : Payload) (v : JsValue) :
  truthy data = true ->
  type data = "object" ->
  toString data = ToStringReturns v ->
  strictEquals v Object_prototype_toString = false ->
  new_DomainError data = Normal {| message := v |}.
Proof.
  intros Htruthy Htype Hcall Hrender.
  unfold new_DomainError, safeStringify.
  rewrite Htruthy, Htype, Hcall, Hrender. reflexivity.
Qed.

Lemma DomainError_message_not_object (data : Payload) :
  truthy data = false \/ type data <> "object" ->
  new_DomainError data =
  match dump data with
  | Normal m => Normal {| message := m |}
  | Throws => Throws
  end.
Proof.
  intros Hnot. unfold new_DomainError, safeStringify.
  destruct Hnot as [-> | Htype]; [reflexivity | ].
  apply String.eqb_neq in Htype. rewrite Htype, andb_false_r. reflexivity.
Qed.

(** A subclass constructor only adds [name]: the message is the one the
    base constructor computed, and it throws exactly when that one does. *)
Lemma subclass_keeps_message (data : Payload) :
  match new_DomainError data with
  | Normal base =>
      new_UserServiceDbQueryError data = Normal (UserServiceDbQueryError base)
      /\ new_UserServiceInvalidDataError data =
         Normal (UserServiceInvalidDataError base)
  | Throws =>
      new_UserServiceDbQueryError data = Throws /\
      new_UserServiceInvalidDataError data = Throws
  end.
Proof.
  unfold new_UserServiceDbQueryError, new_UserServiceInvalidDataError.
  destruct (new_DomainError data); split; reflexivity.
Qed.


(** ** The hardcoded providers *)

Lemma HardcodedUserDb_lookup (key : string) :
  RR.lookup key HardcodedUserProvider.HardcodedUserDb =
  if String.eqb key "ekent@mercury.com" then Some HardcodedUserProvider.ethan else None.
Proof.
  unfold RR.lookup, HardcodedUserProvider.HardcodedUserDb.
  destruct (String.eqb_spec key "ekent@mercury.com") as [-> | Hne].
  - apply lookup_singleton_eq.
  - apply lookup_singleton_ne. congruence.
Qed.

(** Calling the mocked [log] records the message and then does what the
    implementation does. *)
Lemma run_mocked_log {S R E : Type} `{HL : LoggingService S R}
  (message : string) (deps : R) (s : S) (l : list jest.Call) :
  RTE.run (log (E := E) message) (jest.mockLoggingService deps)
    {| jest.world := s; jest.calls := l |} =
  (Right tt,
   {| jest.world := snd (RTE.run (log (E := E) message) deps s);
      jest.calls := (l ++ [jest.logCall message])%list |}).
Proof.
  unfold log, jest.mockLoggingService, jest.fn, jest.record, jest.lift.
  unfold_effects. cbn.
  destruct (LoggingService_log (LoggingServiceSymbol deps) message s)
    as [task s0].
  cbn. destruct (task s0) as [[] s1]. reflexivity.
Qed.

(** The run of the hardcoded lookup in any environment that can log. *)
Lemma run_hardcoded_getUserByEmail {W R E : Type} `{HL : LoggingService W R}
  (email : Email) (deps : R) (w : W) :
  let key := isoEmail.unwrap email in
  let found := RR.lookup key HardcodedUserProvider.HardcodedUserDb in
  RTE.run (HardcodedUserProvider.getUserByEmail (E := E) email) deps w =
  let (looking, w1) :=
    RTE.run (log (E := E) ("Looking up email `" ++ key ++ "`")) deps w in
  match looking with
  | Left l => (Left l, w1)
  | Right _ =>
      let (result, w2) :=
        RTE.run
          (log (E := E) ("Result: " ++ JSON.stringify_OptionUser found))
          deps w1 in
      (E.map (fun _ => found) result, w2)
  end.
Proof.
  cbv zeta. unfold HardcodedUserProvider.getUserByEmail.
  rewrite run_tap, run_map, run_tap, run_of.
  destruct (RTE.run (log ("Looking up email `" ++ isoEmail.unwrap email
                          ++ "`")) deps w) as [[l | []] w1];
    reflexivity.
Qed.

(** C8.  Through the hardcoded user provider, the lookup of
    ["ekent@mercury.com"] succeeds with the present user
    [{ firstName: "Ethan", lastName: "Kent",
       id: a2a9a967-10bb-43b9-8230-99ae3a3d161f, email: "ekent@mercury.com" }],
    and the lookup of any other email succeeds with an absent user.  In
    both cases the logging service is called first with the literal message
    [Looking up email `<email>`] and then with the rendering of the
    result. *)
Theorem hardcoded_user_lookup {S R : Type} `{HL : LoggingService S R}
  (deps : R) (address : Email) (s : S) :
  let key := isoEmail.unwrap address in
  let found :=
    if String.eqb key "ekent@mercury.com"
    then Some {| firstName := "Ethan";
                 lastName := "Kent";
                 id := isoUserId.wrap "a2a9a967-10bb-43b9-8230-99ae3a3d161f";
                 email := isoEmail.wrap "ekent@mercury.com" |}
    else None in
  exists s' : S,
    RTE.run (getUserByEmail address)
      (HardcodedUserProvider.createHardcodedUserProvider
         (jest.mockLoggingService deps))
      {| jest.world := s; jest.calls := [] |} =
    (Right found,
     {| jest.world := s';
        jest.calls :=
          [jest.logCall ("Looking up email `" ++ key ++ "`");
           jest.logCall ("Result: " ++ JSON.stringify_OptionUser found)] |}).
Proof.
  cbv zeta.
  change (RTE.run (getUserByEmail address)
            (HardcodedUserProvider.createHardcodedUserProvider
               (jest.mockLoggingService deps)))
    with (RTE.run
            (HardcodedUserProvider.getUserByEmail (E := UserServiceError)
               address)
            (jest.mockLoggingService deps)).
  rewrite run_hardcoded_getUserByEmail, run_mocked_log, run_mocked_log.
  rewrite HardcodedUserDb_lookup.
  eexists. reflexivity.
Qed.

(** C10.  The hardcoded account provider always succeeds, whatever the
    owner id: with the stored account when the unwrapped id is the one key
    of the hardcoded map, with an absent account otherwise.  It leaves the
    world as it found it. *)
Theorem hardcoded_account_lookup {W : Type} (ownerId : UserId) (w : W) :
  RTE.run (getAccountByOwnerId ownerId)
    (HardcodedAccountProvider.HardcodedAccountProvider (W := W)) w =
  (Right
     (if String.eqb (isoUserId.unwrap ownerId)
           "a2a9a967-10bb-43b9-8230-99ae3a3d161f"
      then Some HardcodedAccountProvider.ethansAccount
      else None),
   w).
Proof.
  unfold getAccountByOwnerId, HardcodedAccountProvider.HardcodedAccountProvider,
    HardcodedAccountProvider.getAccountByOwnerId, RR.lookup,
    HardcodedAccountProvider.HardcodedAccountDb.
  unfold_effects. cbn. f_equal. f_equal.
  destruct (String.eqb_spec (isoUserId.unwrap ownerId)
              "a2a9a967-10bb-43b9-8230-99ae3a3d161f") as [-> | Hne].
  - apply lookup_singleton_eq.
  - apply lookup_singleton_ne. congruence.
Qed.

(** ** The Email codec *)

(** C9.  The Email codec accepts every string and wraps it unchanged, and
    unwrapping the wrapped string gives the string back. *)
Theorem Email_accepts_every_string (s : string) :
  Email_decode (JsString s) = Right (isoEmail.wrap s) /\
  isoEmail.unwrap (isoEmail.wrap s) = s.
Proof. split; reflexivity. Qed.

(** Being a string is all the codec asks for, and it does ask for it. *)
Lemma Email_decode_Right_iff (u : JsValue) :
  (exists e, Email_decode u = Right e) <-> typeof u = "string".
Proof.
  split.
  - intros [e He]. destruct u; cbn in He; try discriminate. reflexivity.
  - intros Hs. destruct u; cbn in Hs; try discriminate.
    eexists. reflexivity.
Qed.

Lemma isoEmail_wrap_unwrap (e : Email) :
  isoEmail.wrap (isoEmail.unwrap e) = e.
Proof. destruct e. reflexivity. Qed.

(** ** The properties at concrete inputs *)

(** C1 at the hardcoded providers: nobody has the email
    ["unknown@mercury.com"]. *)
Lemma absent_user_skips_account_lookup_witness :
  let email := isoEmail.wrap "unknown@mercury.com" in
  let out :=
    ["Looking up email `unknown@mercury.com`";
     "Result: " ++ JSON.stringify_OptionUser None] in
  RTE.run (getUserByEmail email) Fixtures.hardcodedDeps [] = (Right None, out) /\
  RTE.run (getAccountByUserEmail email) Fixtures.hardcodedDeps [] =
    (Right None, out) /\
  RTE.run (getAccountByUserEmail email) (jest.mockDeps Fixtures.hardcodedDeps)
    {| jest.world := []; jest.calls := [] |} =
  (Right None,
   {| jest.world := out; jest.calls := [jest.getUserByEmailCall email] |}).
Proof.
  cbv zeta.
  split; [vm_compute; reflexivity | ].
  apply (absent_user_skips_account_lookup
           (isoEmail.wrap "unknown@mercury.com") Fixtures.hardcodedDeps []
           ["Looking up email `unknown@mercury.com`";
            "Result: " ++ JSON.stringify_OptionUser None]).
  vm_compute. reflexivity.
Defined.

(** C2 at the database-backed provider of db-user-provider.spec.ts, with a
    database that fails. *)
Lemma failed_user_lookup_propagates_witness :
  let email := isoEmail.wrap "ekent@mercury.com" in
  let e :=
    UserServiceDbQueryError {| message := JsString "Error: DB failure" |} in
  let deps :=
    spread
      (DbUserProvider.createDbUserProvider HexGroups.test Fixtures.noStringify
         Fixtures.noInspect
         (Fixtures.createTestDeps JsNull
            (Some (Fixtures.Error_ "DB failure" "Error: DB failure"))))
      (HardcodedAccountProvider.HardcodedAccountProvider (W := unit)) in
  RTE.run (getUserByEmail email) deps tt = (Left e, tt) /\
  RTE.run (getAccountByUserEmail email) deps tt =
    (Left (ofUserServiceError e), tt) /\
  RTE.run (getAccountByUserEmail email) (jest.mockDeps deps)
    {| jest.world := tt; jest.calls := [] |} =
  (Left (ofUserServiceError e),
   {| jest.world := tt; jest.calls := [jest.getUserByEmailCall email] |}).
Proof.
  cbv zeta.
  split; [vm_compute; reflexivity | ].
  apply (failed_user_lookup_propagates
           (isoEmail.wrap "ekent@mercury.com")
           (spread
              (DbUserProvider.createDbUserProvider HexGroups.test
                 Fixtures.noStringify Fixtures.noInspect
                 (Fixtures.createTestDeps JsNull
                    (Some (Fixtures.Error_ "DB failure" "Error: DB failure"))))
              (HardcodedAccountProvider.HardcodedAccountProvider (W := unit)))
           (UserServiceDbQueryError
              {| message := JsString "Error: DB failure" |})
           tt tt).
  vm_compute. reflexivity.
Defined.

(** C3 at the mocks of get-account-by-user-email.spec.ts: the result is
    the mocked account and the account lookup is called with
    ["testUserId1"]. *)
Lemma present_user_and_account_witness :
  let email := isoEmail.wrap "input" in
  let deps :=
    Fixtures.depsReturning (TE.of_ (Some Fixtures.testUser))
      (TE.of_ (Some Fixtures.testAccount)) in
  RTE.run (getUserByEmail email) deps tt = (Right (Some Fixtures.testUser), tt) /\
  RTE.run (getAccountByOwnerId (id Fixtures.testUser)) deps tt =
    (Right (Some Fixtures.testAccount), tt) /\
  RTE.run (getAccountByUserEmail email) deps tt =
    (Right (Some Fixtures.testAccount), tt) /\
  RTE.run (getAccountByUserEmail email) (jest.mockDeps deps)
    {| jest.world := tt; jest.calls := [] |} =
  (Right (Some Fixtures.testAccount),
   {| jest.world := tt;
      jest.calls := [jest.getUserByEmailCall email;
                     jest.getAccountByOwnerIdCall
                       (isoUserId.wrap "testUserId1")] |}).
Proof.
  cbv zeta.
  split; [reflexivity | ]. split; [reflexivity | ].
  apply (present_user_and_account (isoEmail.wrap "input")
           (Fixtures.depsReturning (TE.of_ (Some Fixtures.testUser))
              (TE.of_ (Some Fixtures.testAccount)))
           Fixtures.testUser Fixtures.testAccount tt tt tt);
    reflexivity.
Defined.

(** C4: a user without an account, against the hardcoded providers asked
    for an unknown email. *)
Lemma absent_account_same_as_absent_user_witness :
  let deps :=
    Fixtures.depsReturning (TE.of_ (Some Fixtures.testUser)) (TE.of_ None) in
  RTE.run (getAccountByUserEmail (isoEmail.wrap "input")) deps tt =
    (Right None, tt) /\
  fst (RTE.run (getAccountByUserEmail (isoEmail.wrap "input")) deps tt) =
  fst (RTE.run (getAccountByUserEmail (isoEmail.wrap "unknown@mercury.com"))
         Fixtures.hardcodedDeps []).
Proof.
  cbv zeta.
  apply (absent_account_same_as_absent_user (isoEmail.wrap "input")
           (Fixtures.depsReturning (TE.of_ (Some Fixtures.testUser))
              (TE.of_ None))
           Fixtures.testUser tt tt tt
           (isoEmail.wrap "unknown@mercury.com") Fixtures.hardcodedDeps []
           ["Looking up email `unknown@mercury.com`";
            "Result: " ++ JSON.stringify_OptionUser None]).
  - reflexivity.
  - reflexivity.
  - vm_compute. reflexivity.
Defined.

(** C5 at the failing database of db-user-provider.spec.ts: the failure
    is a [UserServiceDbQueryError] with the message [Error: DB failure]. *)
Lemma db_error_becomes_query_error_witness :
  let e := Fixtures.Error_ "DB failure" "Error: DB failure" in
  let failure :=
    UserServiceDbQueryError {| message := JsString "Error: DB failure" |} in
  RTE.run (getUserByEmail (isoEmail.wrap "ekent@mercury.com"))
    (DbUserProvider.createDbUserProvider HexGroups.test Fixtures.noStringify
       Fixtures.noInspect (Fixtures.createTestDeps JsNull (Some e)))
    tt = (Left failure, tt) /\
  new_UserServiceDbQueryError (payload_of_error e) = Normal failure /\
  UserServiceError_name failure = "UserServiceDbQueryError".
Proof.
  cbv zeta.
  apply (db_error_becomes_query_error HexGroups.test Fixtures.noStringify
           Fixtures.noInspect
           (isoEmail.wrap "ekent@mercury.com")
           (Fixtures.createTestDeps JsNull
              (Some (Fixtures.Error_ "DB failure" "Error: DB failure")))
           (Fixtures.Error_ "DB failure" "Error: DB failure") JsNull tt tt).
  reflexivity.
Defined.

(** The claim as first stated (the failure preserves the original error)
    fails: two different errors, with the same name and message but
    different stacks, give the very same failure, from which neither can
    be told nor recovered. *)
Lemma distinct_errors_same_failure :
  let e1 := Fixtures.Error_ "DB failure" "Error: DB failure at first" in
  let e2 := Fixtures.Error_ "DB failure" "Error: DB failure at second" in
  let lookup e :=
    RTE.run (getUserByEmail (isoEmail.wrap "ekent@mercury.com"))
      (DbUserProvider.createDbUserProvider HexGroups.test Fixtures.noStringify
         Fixtures.noInspect (Fixtures.createTestDeps JsNull (Some e)))
      tt in
  e1 <> e2 /\
  lookup e1 = lookup e2 /\
  lookup e1 =
    (Left (UserServiceDbQueryError
             {| message := JsString "Error: DB failure" |}), tt).
Proof.
  cbv zeta. split; [discriminate | ].
  split; vm_compute; reflexivity.
Qed.

(** C7 at the mocks of get-account-by-user-email.spec.ts, which return the
    same value at every call. *)
Lemma getAccountByUserEmail_twice_same_result_witness :
  let deps :=
    Fixtures.depsReturning (TE.of_ (Some Fixtures.testUser))
      (TE.of_ (Some Fixtures.testAccount)) in
  let first := RTE.run (getAccountByUserEmail (isoEmail.wrap "input")) deps tt in
  let second :=
    RTE.run (getAccountByUserEmail (isoEmail.wrap "input")) deps (snd first) in
  fst first = fst second.
Proof.
  cbv zeta.
  apply (getAccountByUserEmail_twice_same_result
           (Fixtures.depsReturning (TE.of_ (Some Fixtures.testUser))
              (TE.of_ (Some Fixtures.testAccount)))).
  - intros a s s'. reflexivity.
  - intros a s s'. reflexivity.
Defined.

(** The message of the failure in C5's scenario. *)
Example db_failure_message :
  safeStringify
    (payload_of_error (Fixtures.Error_ "DB failure" "Error: DB failure")) =
  Normal (JsString "Error: DB failure").
Proof. reflexivity. Qed.

(** The scenarios of hardcoded-user-provider.spec.ts, on the console. *)
Example hardcoded_lookup_hit :
  RTE.run (getUserByEmail (isoEmail.wrap "ekent@mercury.com"))
    (HardcodedUserProvider.createHardcodedUserProvider
       ConsoleLoggingProvider.ConsoleLoggingProvider) [] =
  (Right (Some HardcodedUserProvider.ethan),
   ["Looking up email `ekent@mercury.com`";
    "Result: " ++ JSON.stringify_OptionUser (Some HardcodedUserProvider.ethan)]).
Proof. vm_compute. reflexivity. Qed.

Example hardcoded_lookup_miss :
  RTE.run (getUserByEmail (isoEmail.wrap "unknown@mercury.com"))
    (HardcodedUserProvider.createHardcodedUserProvider
       ConsoleLoggingProvider.ConsoleLoggingProvider) [] =
  (Right None,
   ["Looking up email `unknown@mercury.com`";
    "Result: " ++ JSON.stringify_OptionUser None]).
Proof. vm_compute. reflexivity. Qed.

(** The composition root's request, on the hardcoded providers. *)
Example main_on_hardcoded_providers :
  fst (RTE.run (getAccountByUserEmail (isoEmail.wrap "ekent@mercury.com"))
         Fixtures.hardcodedDeps []) =
  Right (Some HardcodedAccountProvider.ethansAccount).
Proof. vm_compute. reflexivity. Qed.

(** The id of the hardcoded user has the shape of a UUID; the ids of the
    spec mocks have not, and only a codec would notice. *)
Example hex_groups_accepts :
  HexGroups.test "a2a9a967-10bb-43b9-8230-99ae3a3d161f" = true.
Proof. reflexivity. Qed.

Example hex_groups_rejects :
  HexGroups.test "testUserId1" = false.
Proof. reflexivity. Qed.

(* ===================================================================== *)
(** * Part III.  Further properties of the providers, codecs and shell     *)
(* ===================================================================== *)

(** ** The codecs of src/core *)

Lemma string_validate_Right (v : JsValue) (c : Context) (s : string) :
  t.string_validate v c = Right s <-> v = JsString s.
Proof.
  unfold t.string_validate, t.success, t.failure. split.
  - destruct v; intros H; try discriminate. congruence.
  - intros ->. reflexivity.
Qed.

Lemma string_validate_Left (v : JsValue) (c : Context) (es : Errors) :
  t.string_validate v c = Left es ->
  es = [ {| ve_value := v; ve_context := c |} ] /\
  forall s, v <> JsString s.
Proof.
  unfold t.string_validate, t.success, t.failure.
  destruct v; intros H; try discriminate;
    (split; [congruence | intros s' Hs; discriminate]).
Qed.

Section CodecFacts.

(** The test of io-ts-types' [UUID]: every fact below holds whatever
    strings it accepts. *)
Variable isUUID : string -> bool.

Lemma UUID_validate_Right (v : JsValue) (c : Context) (s : string) :
  UUID_validate isUUID v c = Right s <-> v = JsString s /\ isUUID s = true.
Proof.
  unfold UUID_validate, t.string_validate, t.success, t.failure. split.
  - destruct v; intros H; try discriminate.
    destruct (isUUID s0) eqn:Hre; try discriminate.
    split; congruence.
  - intros [-> Hre]. rewrite Hre. reflexivity.
Qed.

Lemma UUID_validate_Left (v : JsValue) (c : Context) (es : Errors) :
  UUID_validate isUUID v c = Left es ->
  es = [ {| ve_value := v; ve_context := c |} ] /\
  forall s, v = JsString s -> isUUID s = false.
Proof.
  unfold UUID_validate, t.string_validate, t.success, t.failure.
  destruct v; intros H; try discriminate;
    try (split; [congruence | intros s' Hs; discriminate]).
  destruct (isUUID s) eqn:Hre; try discriminate.
  split; [congruence | ]. intros s' Hs. congruence.
Qed.

Lemma Email_validate_Right (v : JsValue) (c : Context) (e : Email) :
  Email_validate v c = Right e <-> v = JsString (isoEmail.unwrap e).
Proof.
  unfold Email_validate, isoEmail.wrap. destruct e as [s]. cbn. split.
  - destruct (t.string_validate v c) as [es | s'] eqn:H; cbn; intros He;
      try discriminate.
    apply string_validate_Right in H. congruence.
  - intros ->. reflexivity.
Qed.

Lemma UserId_validate_Right (v : JsValue) (c : Context) (i : UserId) :
  UserId_validate isUUID v c = Right i <->
  v = JsString (isoUserId.unwrap i) /\
  isUUID (isoUserId.unwrap i) = true.
Proof.
  unfold UserId_validate, isoUserId.wrap. destruct i as [s]. cbn. split.
  - destruct (UUID_validate isUUID v c) as [es | s'] eqn:H; cbn; intros Hi;
      try discriminate.
    apply UUID_validate_Right in H. destruct H as [Hv Hre].
    injection Hi as <-. split; assumption.
  - intros H. apply (UUID_validate_Right v c s) in H. rewrite H. reflexivity.
Qed.

Lemma AccountId_validate_Right (v : JsValue) (c : Context) (i : AccountId) :
  AccountId_validate isUUID v c = Right i <->
  v = JsString (isoAccountId.unwrap i) /\
  isUUID (isoAccountId.unwrap i) = true.
Proof.
  unfold AccountId_validate, isoAccountId.wrap. destruct i as [s]. cbn.
  split.
  - destruct (UUID_validate isUUID v c) as [es | s'] eqn:H; cbn; intros Hi;
      try discriminate.
    apply UUID_validate_Right in H. destruct H as [Hv Hre].
    injection Hi as <-. split; assumption.
  - intros H. apply (UUID_validate_Right v c s) in H. rewrite H. reflexivity.
Qed.

(** [User.decode] succeeds exactly on the objects whose four declared
    properties are valid, and then with the input itself. *)
Lemma User_decode_Right_aux (u v : JsValue) :
  User_decode isUUID u = Right v <->
  v = u /\
  exists props fn ln i e,
    u = JsObject props /\
    getProp "firstName" props = JsString fn /\
    getProp "lastName" props = JsString ln /\
    getProp "id" props = JsString i /\
    isUUID i = true /\
    getProp "email" props = JsString e.
Proof.
  unfold User_decode, User_validate. split.
  - destruct u as [ | | | | | | props]; try discriminate.
    destruct (t.string_validate (getProp "firstName" props) _)
      as [e1 | fn] eqn:H1;
    destruct (t.string_validate (getProp "lastName" props) _)
      as [e2 | ln] eqn:H2;
    destruct (UserId_validate isUUID (getProp "id" props) _)
      as [e3 | i] eqn:H3;
    destruct (Email_validate (getProp "email" props) _) as [e4 | e] eqn:H4;
    unfold t.success; cbn; intros H; try discriminate.
    injection H as <-. split; [reflexivity | ].
    apply string_validate_Right in H1, H2.
    apply UserId_validate_Right in H3. destruct H3 as [H3 Hre].
    apply Email_validate_Right in H4.
    exists props, fn, ln, (isoUserId.unwrap i), (isoEmail.unwrap e).
    repeat split; assumption.
  - intros (-> & props & fn & ln & i & e & -> & H1 & H2 & H3 & Hre & H4).
    rewrite (proj2 (string_validate_Right _ _ fn) H1).
    rewrite (proj2 (string_validate_Right _ _ ln) H2).
    rewrite (proj2 (UserId_validate_Right _ _ (isoUserId.wrap i))
               (conj H3 Hre)).
    rewrite (proj2 (Email_validate_Right _ _ (isoEmail.wrap e)) H4).
    reflexivity.
Qed.

(** The typed view of an object whose four declared properties are
    strings. *)
Lemma User_view_props (props : list (string * JsValue)) (fn ln i e : string) :
  getProp "firstName" props = JsString fn ->
  getProp "lastName" props = JsString ln ->
  getProp "id" props = JsString i ->
  getProp "email" props = JsString e ->
  User_view (JsObject props) =
  {| firstName := fn; lastName := ln;
     id := isoUserId.wrap i; email := isoEmail.wrap e |}.
Proof.
  intros H1 H2 H3 H4. unfold User_view, propsOf.
  rewrite H1, H2, H3, H4. reflexivity.
Qed.

Lemma User_view_rowOfUser (usr : User) :
  User_view (DbSpec.rowOfUser usr) = usr.
Proof. destruct usr as [fn ln [i] [e]]. reflexivity. Qed.

(** X1.  [User.decode] succeeds exactly when the input is a plain object
    whose [firstName], [lastName], [id] and [email] properties are strings,
    the [id] one that passes the UUID test.  What it returns is the input
    object itself, with whatever further properties it has; seen as a
    [User], it carries those four strings. *)
Theorem User_decode_Right_iff (u v : JsValue) :
  User_decode isUUID u = Right v <->
  v = u /\
  exists props fn ln i e,
    u = JsObject props /\
    getProp "firstName" props = JsString fn /\
    getProp "lastName" props = JsString ln /\
    getProp "id" props = JsString i /\
    isUUID i = true /\
    getProp "email" props = JsString e /\
    User_view v =
      {| firstName := fn; lastName := ln;
         id := isoUserId.wrap i; email := isoEmail.wrap e |}.
Proof.
  rewrite User_decode_Right_aux. split.
  - intros (-> & props & fn & ln & i & e & -> & H1 & H2 & H3 & Hre & H4).
    split; [reflexivity | ]. exists props, fn, ln, i, e.
    repeat split; try assumption. apply User_view_props; assumption.
  - intros (-> & props & fn & ln & i & e & -> & H1 & H2 & H3 & Hre & H4 & _).
    split; [reflexivity | ]. exists props, fn, ln, i, e.
    repeat split; assumption.
Qed.

(** X2.  Round trip: the JavaScript object a [User] is at run time is
    decoded to itself when the user's id passes the UUID test, and is
    otherwise rejected with one error, at the path of [id], that carries the
    id; seen as a [User] again, the object is the user it came from. *)
Theorem User_decode_rowOfUser (usr : User) :
  User_decode isUUID (DbSpec.rowOfUser usr) =
    (if isUUID (isoUserId.unwrap (id usr))
     then Right (DbSpec.rowOfUser usr)
     else Left [ {| ve_value := JsString (isoUserId.unwrap (id usr));
                    ve_context := [""; "id"] |} ]) /\
  User_view (DbSpec.rowOfUser usr) = usr.
Proof.
  split; [ | apply User_view_rowOfUser].
  destruct usr as [fn ln [i] [e]].
  unfold User_decode, User_validate, DbSpec.rowOfUser, UserId_validate,
    UUID_validate, Email_validate, t.string_validate, t.success, t.failure.
  cbn. destruct (isUUID i); reflexivity.
Qed.

(** What one property contributes to the errors of [t.type]: nothing when
    it is valid, one error carrying its value and its path otherwise. *)
Lemma string_errors (v : JsValue) (c : Context) :
  (t.errorsOf (t.string_validate v c) = [] /\ exists s, v = JsString s) \/
  (t.errorsOf (t.string_validate v c) = [ {| ve_value := v; ve_context := c |} ]
   /\ forall s, v <> JsString s).
Proof.
  destruct (t.string_validate v c) as [es | s] eqn:H.
  - right. apply string_validate_Left in H. destruct H as [-> Hv].
    split; [reflexivity | exact Hv].
  - left. apply string_validate_Right in H. split; [reflexivity | eauto].
Qed.

Lemma Email_errors (v : JsValue) (c : Context) :
  t.errorsOf (Email_validate v c) = t.errorsOf (t.string_validate v c).
Proof.
  unfold Email_validate. destruct (t.string_validate v c); reflexivity.
Qed.

Lemma UserId_errors (v : JsValue) (c : Context) :
  (t.errorsOf (UserId_validate isUUID v c) = [] /\
   exists s, v = JsString s /\ isUUID s = true) \/
  (t.errorsOf (UserId_validate isUUID v c) =
     [ {| ve_value := v; ve_context := c |} ]
   /\ forall s, v = JsString s -> isUUID s = false).
Proof.
  unfold UserId_validate.
  destruct (UUID_validate isUUID v c) as [es | s] eqn:H; cbn.
  - right. apply UUID_validate_Left in H. destruct H as [-> Hv].
    split; [reflexivity | exact Hv].
  - left. apply UUID_validate_Right in H. destruct H as [Hv Hre].
    split; [reflexivity | ]. exists s. split; assumption.
Qed.

Lemma User_decode_Left_errors (props : list (string * JsValue)) (es : Errors) :
  User_decode isUUID (JsObject props) = Left es ->
  es = (t.errorsOf (t.string_validate (getProp "firstName" props)
                      [""; "firstName"]) ++
        t.errorsOf (t.string_validate (getProp "lastName" props)
                      [""; "lastName"]) ++
        t.errorsOf (UserId_validate isUUID (getProp "id" props) [""; "id"]) ++
        t.errorsOf (Email_validate (getProp "email" props) [""; "email"]))%list
  /\ es <> [].
Proof.
  unfold User_decode, User_validate. cbn [app].
  destruct (t.string_validate (getProp "firstName" props) _)
    as [e1 | fn] eqn:H1;
  destruct (t.string_validate (getProp "lastName" props) _)
    as [e2 | ln] eqn:H2;
  destruct (UserId_validate isUUID (getProp "id" props) _)
    as [e3 | i] eqn:H3;
  destruct (Email_validate (getProp "email" props) _) as [e4 | e] eqn:H4;
  unfold t.success; cbn; intros H; try discriminate; injection H as <-;
  (split; [reflexivity | ]).
  all: try (apply string_validate_Left in H1; destruct H1 as [-> _];
            discriminate).
  all: try (apply string_validate_Left in H2; destruct H2 as [-> _];
            discriminate).
  all: try (unfold UserId_validate in H3;
            destruct (UUID_validate isUUID (getProp "id" props) [""; "id"])
              as [e3' | s3] eqn:H3'; cbn in H3; try discriminate;
            injection H3 as <-;
            apply UUID_validate_Left in H3'; destruct H3' as [-> _];
            discriminate).
  all: unfold Email_validate in H4;
       destruct (t.string_validate (getProp "email" props) [""; "email"])
         as [e4' | s4] eqn:H4'; cbn in H4; try discriminate;
       injection H4 as <-;
       apply string_validate_Left in H4'; destruct H4' as [-> _];
       discriminate.
Qed.

(** X3.  A failed [User.decode] of an object reports every invalid
    property and no valid one: the errors are never empty, and there is an
    error at the path of a property exactly when that property is not a
    string (for [id]: not a string that passes the UUID test). *)
Theorem User_decode_reports_every_bad_property
  (props : list (string * JsValue)) (es : Errors) :
  User_decode isUUID (JsObject props) = Left es ->
  es <> [] /\
  ((exists e, In e es /\ ve_context e = [""; "firstName"]) <->
   forall s, getProp "firstName" props <> JsString s) /\
  ((exists e, In e es /\ ve_context e = [""; "lastName"]) <->
   forall s, getProp "lastName" props <> JsString s) /\
  ((exists e, In e es /\ ve_context e = [""; "id"]) <->
   forall s, getProp "id" props = JsString s -> isUUID s = false) /\
  ((exists e, In e es /\ ve_context e = [""; "email"]) <->
   forall s, getProp "email" props <> JsString s).
Proof.
  intros H. apply User_decode_Left_errors in H. destruct H as [-> Hne].
  split; [exact Hne | clear Hne].
  rewrite Email_errors.
  destruct (string_errors (getProp "firstName" props) [""; "firstName"])
    as [[-> [s1 H1]] | [-> H1]];
  destruct (string_errors (getProp "lastName" props) [""; "lastName"])
    as [[-> [s2 H2]] | [-> H2]];
  destruct (UserId_errors (getProp "id" props) [""; "id"])
    as [[-> [s3 [H3 Hre]]] | [-> H3]];
  destruct (string_errors (getProp "email" props) [""; "email"])
    as [[-> [s4 H4]] | [-> H4]];
  cbn [app In ve_context].
  all: repeat split; intros.
  all: repeat match goal with
       | H : exists _, _ |- _ => destruct H
       | H : _ /\ _ |- _ => destruct H
       | H : _ \/ _ |- _ => destruct H
       | H : False |- _ => destruct H
       end; subst; cbn [ve_context] in *; try discriminate.
  all: try match goal with
       | H : forall s, ?v <> JsString s, H' : ?v = JsString _ |- _ =>
           exfalso; exact (H _ H')
       | H : forall s, ?v = JsString s -> isUUID s = false,
         H' : ?v = JsString ?s', Hre : isUUID ?s' = true |- _ =>
           specialize (H _ H'); congruence
       | H : forall s, ?v <> JsString s |- ?v <> JsString _ => apply H
       | H : forall s, ?v <> JsString s |- False => eapply H; eassumption
       | H : forall s, ?v = JsString s -> isUUID s = false
         |- isUUID _ = false => apply H; assumption
       end.
  all: first
    [ solve [eexists; split; [left; reflexivity | reflexivity]]
    | solve [eexists; split; [right; left; reflexivity | reflexivity]]
    | solve [eexists; split; [right; right; left; reflexivity | reflexivity]]
    | solve [eexists; split;
             [right; right; right; left; reflexivity | reflexivity]] ].
Qed.

(** X4.  [Account]'s codec succeeds exactly when the input is a plain
    object whose [accountId] and [ownerId] properties are strings that pass
    the UUID test, and what it returns is the input object itself. *)
Theorem Account_validate_Right_iff (u v : JsValue) (c : Context) :
  Account_validate isUUID u c = Right v <->
  v = u /\
  exists props a o,
    u = JsObject props /\
    getProp "accountId" props = JsString a /\
    isUUID a = true /\
    getProp "ownerId" props = JsString o /\
    isUUID o = true.
Proof.
  unfold Account_validate. split.
  - destruct u as [ | | | | | | props]; try discriminate.
    destruct (AccountId_validate isUUID (getProp "accountId" props) _)
      as [e1 | ai] eqn:H1;
    destruct (UserId_validate isUUID (getProp "ownerId" props) _)
      as [e2 | oi] eqn:H2;
    unfold t.success; cbn; intros H; try discriminate.
    injection H as <-. split; [reflexivity | ].
    apply AccountId_validate_Right in H1. destruct H1 as [H1 Hre1].
    apply UserId_validate_Right in H2. destruct H2 as [H2 Hre2].
    exists props, (isoAccountId.unwrap ai), (isoUserId.unwrap oi).
    repeat split; assumption.
  - intros (-> & props & a & o & -> & H1 & Hre1 & H2 & Hre2).
    rewrite (proj2 (AccountId_validate_Right _ _ (isoAccountId.wrap a))
               (conj H1 Hre1)).
    rewrite (proj2 (UserId_validate_Right _ _ (isoUserId.wrap o))
               (conj H2 Hre2)).
    reflexivity.
Qed.

(** X19.  The [UserId] codec accepts a value exactly when it is a string
    that passes the UUID test, and the id it returns wraps that very
    string: decoding then unwrapping gives the input back. *)
Theorem UserId_accepts_exactly_UUID_strings (v : JsValue) (c : Context)
  (i : UserId) :
  UserId_validate isUUID v c = Right i <->
  v = JsString (isoUserId.unwrap i) /\
  isUUID (isoUserId.unwrap i) = true.
Proof. apply UserId_validate_Right. Qed.

End CodecFacts.

(** ** The database-backed provider, case by case *)

Section DbProvider.

Context {W : Type}.

Variable isUUID : string -> bool.
Variable stringify_Errors : Errors -> StringifyOutcome.
Variable inspect_Errors : Errors -> string.

(** One run of the provider: the log call, then [db.get] in the world the
    log left, then the interpretation of what the callback received. *)
Lemma run_db_getUserByEmail (email : Email)
  (deps : DbUserProvider.GetUserByEmailDeps W) (w : W) :
  RTE.run (getUserByEmail email)
    (DbUserProvider.createDbUserProvider isUUID stringify_Errors
       inspect_Errors deps)
    w =
  let w1 :=
    snd (RTE.run (log (E := Empty_set) (DbSpec.preparing email)) deps w) in
  let (cb, w2) :=
    DbUserProvider.Database_get (DbUserProvider.db deps) DbSpec.query
      (DbSpec.params email) w1 in
  (match cb with
   | (Some e, _) => Left (DbUserProvider.queryError e)
   | (None, row) =>
       match O.fromNullable row with
       | None => Right None
       | Some r =>
           match User_decode isUUID r with
           | Left es =>
               Left (DbUserProvider.invalidDataError stringify_Errors
                       inspect_Errors es)
           | Right u => Right (Some (User_view u))
           end
       end
   end, w2).
Proof.
  unfold DbSpec.preparing, DbSpec.query, DbSpec.params.
  unfold getUserByEmail, DbUserProvider.createDbUserProvider,
    UserServiceSymbol, UserServiceObject_UserService.
  unfold DbUserProvider.getUserByEmail, DbUserProvider.taskifiedGet.
  unfold log. unfold_effects.
  unfold LoggingServiceSymbol, DbUserProvider.GetUserByEmailDeps_LoggingService.
  cbn [UserServiceObject_ops UserService_getUserByEmail].
  destruct (LoggingService_log (DbUserProvider.logging deps)
              ("Preparing to query for " ++ isoEmail.unwrap email) w)
    as [task w0].
  destruct (task w0) as [[] w1]. cbn.
  destruct (DbUserProvider.Database_get (DbUserProvider.db deps)
              "SELECT * FROM users WHERE email = ?"
              (JsArray [JsString (isoEmail.unwrap email)]) w1)
    as [[[e | ] row] w2]; [reflexivity | ].
  cbn. destruct (O.fromNullable row) as [r | ]; [ | reflexivity].
  cbn. destruct (User_decode isUUID r) as [es | u]; reflexivity.
Qed.

(** X6.  When [db.get] reports no error and no row ([null] or
    [undefined]), the lookup succeeds with an absent user: a missing record
    is not an error. *)
Theorem db_no_row_is_absent_user (email : Email)
  (deps : DbUserProvider.GetUserByEmailDeps W) (row : JsValue) (w w2 : W) :
  let w1 :=
    snd (RTE.run (log (E := Empty_set) (DbSpec.preparing email)) deps w) in
  DbUserProvider.Database_get (DbUserProvider.db deps) DbSpec.query
    (DbSpec.params email) w1 = ((None, row), w2) ->
  row = JsNull \/ row = JsUndefined ->
  RTE.run (getUserByEmail email)
    (DbUserProvider.createDbUserProvider isUUID stringify_Errors
       inspect_Errors deps)
    w = (Right None, w2).
Proof.
  cbv zeta. intros Hget Hrow. rewrite run_db_getUserByEmail. cbv zeta.
  rewrite Hget. destruct Hrow as [-> | ->]; reflexivity.
Qed.

(** X7.  When [db.get] reports no error and a row that [User.decode]
    accepts, the decoded value is the row itself, with all its properties,
    and the lookup succeeds with it present: as a [User], the row's
    [firstName], [lastName], [id] and [email], which are strings. *)
Theorem db_valid_row_is_present_user (email : Email)
  (deps : DbUserProvider.GetUserByEmailDeps W) (row v : JsValue)
  (w w2 : W) :
  let w1 :=
    snd (RTE.run (log (E := Empty_set) (DbSpec.preparing email)) deps w) in
  DbUserProvider.Database_get (DbUserProvider.db deps) DbSpec.query
    (DbSpec.params email) w1 = ((None, row), w2) ->
  User_decode isUUID row = Right v ->
  v = row /\
  (exists props fn ln i e,
     row = JsObject props /\
     getProp "firstName" props = JsString fn /\
     getProp "lastName" props = JsString ln /\
     getProp "id" props = JsString i /\
     getProp "email" props = JsString e /\
     RTE.run (getUserByEmail email)
       (DbUserProvider.createDbUserProvider isUUID stringify_Errors
          inspect_Errors deps)
       w =
     (Right (Some {| firstName := fn; lastName := ln;
                     id := isoUserId.wrap i; email := isoEmail.wrap e |}),
      w2)).
Proof.
  cbv zeta. intros Hget Hdecode.
  apply User_decode_Right_aux in Hdecode as Hshape.
  destruct Hshape as (-> & props & fn & ln & i & e & -> & H1 & H2 & H3 & _
                      & H4).
  split; [reflexivity | ]. exists props, fn, ln, i, e.
  repeat (split; [assumption || reflexivity | ]).
  rewrite run_db_getUserByEmail. cbv zeta.
  rewrite Hget. cbn [O.fromNullable].
  rewrite Hdecode, (User_view_props props fn ln i e H1 H2 H3 H4).
  reflexivity.
Qed.

(** X8.  When [db.get] reports no error and a row that is present but
    fails [User.decode] with the errors [es], the lookup fails with the
    [UserServiceInvalidDataError] the constructor builds from [es]: its
    message is the comma-joined default renderings when there are two or
    more errors (or none), and the dump of [es] when there is one. *)
Theorem db_invalid_row_is_invalid_data_error (email : Email)
  (deps : DbUserProvider.GetUserByEmailDeps W) (row : JsValue) (es : Errors)
  (w w2 : W) :
  let w1 :=
    snd (RTE.run (log (E := Empty_set) (DbSpec.preparing email)) deps w) in
  DbUserProvider.Database_get (DbUserProvider.db deps) DbSpec.query
    (DbSpec.params email) w1 = ((None, row), w2) ->
  row <> JsNull ->
  row <> JsUndefined ->
  User_decode isUUID row = Left es ->
  let failure :=
    UserServiceInvalidDataError
      {| message :=
           if String.eqb (joinDefault (length es)) "[object Object]"
           then match stringify_Errors es with
                | Stringified s => JsString s
                | StringifiedUndefined => JsUndefined
                | StringifyThrows => JsString (inspect_Errors es)
                end
           else JsString (joinDefault (length es)) |} in
  RTE.run (getUserByEmail email)
    (DbUserProvider.createDbUserProvider isUUID stringify_Errors
       inspect_Errors deps)
    w = (Left failure, w2) /\
  new_UserServiceInvalidDataError
    (payload_of_Errors stringify_Errors inspect_Errors es) = Normal failure /\
  UserServiceError_name failure = "UserServiceInvalidDataError".
Proof.
  cbv zeta. intros Hget Hnull Hundefined Hdecode.
  split; [ | split; [ | reflexivity]].
  - rewrite run_db_getUserByEmail. cbv zeta. rewrite Hget.
    destruct row; try congruence; cbn [O.fromNullable]; rewrite Hdecode;
      rewrite invalidDataError_eq; reflexivity.
  - unfold new_UserServiceInvalidDataError, new_DomainError, safeStringify,
      payload_of_Errors, Object_prototype_toString, strictEquals, dump.
    cbn [truthy type toString stringify inspect andb negb].
    change (String.eqb "object" "object") with true. cbn [andb].
    destruct (String.eqb (joinDefault (length es)) "[object Object]");
      cbn [negb]; [destruct (stringify_Errors es) | ]; reflexivity.
Qed.

(** X9.  Whatever the database and the logging service do, a user the
    provider returns is the view of a row that has passed [User.decode]:
    in particular its id passes the UUID test. *)
Theorem db_user_has_UUID_id (email : Email)
  (deps : DbUserProvider.GetUserByEmailDeps W) (u : User) (w : W) :
  fst (RTE.run (getUserByEmail email)
         (DbUserProvider.createDbUserProvider isUUID stringify_Errors
            inspect_Errors deps) w) = Right (Some u) ->
  isUUID (isoUserId.unwrap (id u)) = true /\
  exists row, User_decode isUUID row = Right row /\ User_view row = u.
Proof.
  rewrite run_db_getUserByEmail. cbv zeta.
  destruct (DbUserProvider.Database_get _ _ _ _) as [[[e | ] row] w2]; cbn;
    [discriminate | ].
  destruct (O.fromNullable row) as [r | ]; [ | discriminate].
  destruct (User_decode isUUID r) as [es | r'] eqn:Hdecode; [discriminate | ].
  intros Hu. injection Hu as <-.
  apply User_decode_Right_aux in Hdecode as Hshape.
  destruct Hshape as (-> & props & fn & ln & i & e & -> & H1 & H2 & H3 & Hre
                      & H4).
  split; [ | exists (JsObject props); split; [exact Hdecode | reflexivity]].
  rewrite (User_view_props props fn ln i e H1 H2 H3 H4). exact Hre.
Qed.

End DbProvider.

(** ** The database-backed provider under jest mocks *)

Lemma run_mocked_db_log {S E : Type} (message : string)
  (deps : DbUserProvider.GetUserByEmailDeps S) (s : S) (l : list jest.Call) :
  RTE.run (log (E := E) message) (DbSpec.mockDeps deps)
    {| jest.world := s; jest.calls := l |} =
  (Right tt,
   {| jest.world := snd (RTE.run (log (E := E) message) deps s);
      jest.calls := (l ++ [jest.logCall message])%list |}).
Proof.
  unfold log, DbSpec.mockDeps, jest.fn, jest.record, jest.lift.
  unfold_effects.
  unfold LoggingServiceSymbol, DbUserProvider.GetUserByEmailDeps_LoggingService.
  cbn.
  destruct (LoggingService_log (DbUserProvider.logging deps) message s)
    as [task s0].
  cbn. destruct (task s0) as [[] s1]. reflexivity.
Qed.

(** X10.  One lookup through the provider calls [log] once, with
    [Preparing to query for <email>], and then [db.get] once, with the
    constant text [SELECT * FROM users WHERE email = ?] and the email as
    its only parameter; the mocks change neither the result nor what the
    implementations do. *)
Theorem db_lookup_call_record {S : Type} (isUUID : string -> bool)
  (stringify_Errors : Errors -> StringifyOutcome)
  (inspect_Errors : Errors -> string) (email : Email)
  (deps : DbUserProvider.GetUserByEmailDeps S) (s : S) (l : list jest.Call) :
  RTE.run (getUserByEmail email)
    (DbUserProvider.createDbUserProvider isUUID stringify_Errors
       inspect_Errors (DbSpec.mockDeps deps))
    {| jest.world := s; jest.calls := l |} =
  let (result, s') :=
    RTE.run (getUserByEmail email)
      (DbUserProvider.createDbUserProvider isUUID stringify_Errors
         inspect_Errors deps)
      s in
  (result,
   {| jest.world := s';
      jest.calls :=
        (l ++ [jest.logCall ("Preparing to query for " ++ isoEmail.unwrap email);
               jest.dbGetCall "SELECT * FROM users WHERE email = ?"
                 (JsArray [JsString (isoEmail.unwrap email)])])%list |}).
Proof.
  rewrite !run_db_getUserByEmail. cbv zeta.
  rewrite run_mocked_db_log. cbn [snd].
  unfold DbSpec.mockDeps at 1. cbn [DbUserProvider.db].
  unfold jest.mockDb, jest.record, jest.lift.
  cbn [DbUserProvider.Database_get]. unfold bind.
  cbn [jest.world jest.calls].
  destruct (DbUserProvider.Database_get (DbUserProvider.db deps) DbSpec.query
              (DbSpec.params email)
              (snd (RTE.run (log (DbSpec.preparing email)) deps s)))
    as [cb s2].
  rewrite <- app_assoc. reflexivity.
Qed.

(** ** The message of an invalid-data error *)

Lemma joinDefault_not_default (n : nat) :
  n <> 1 -> joinDefault n <> Object_prototype_toString.
Proof.
  destruct n as [ | [ | n]]; intros Hn; [discriminate | congruence | ].
  change (joinDefault (S (S n)))
    with (Object_prototype_toString ++ "," ++ joinDefault (S n)).
  unfold Object_prototype_toString. cbn [String.append]. discriminate.
Qed.

(** X11.  The message of an error built from io-ts validation errors
    depends on their number only when there are two or more: the array's
    [toString] joins one default rendering per error with commas and that
    text becomes the message.  With exactly one error the joined text is
    the default rendering itself, so the message is the JSON dump (or the
    [util.inspect] fallback).  The constructor returns in every case. *)
Theorem invalid_data_message (stringify_Errors : Errors -> StringifyOutcome)
  (inspect_Errors : Errors -> string) (es : Errors) :
  new_DomainError (payload_of_Errors stringify_Errors inspect_Errors es) =
  Normal
    {| message :=
         if (length es =? 1)%nat
         then match stringify_Errors es with
              | Stringified s => JsString s
              | StringifiedUndefined => JsUndefined
              | StringifyThrows => JsString (inspect_Errors es)
              end
         else JsString (joinDefault (length es)) |}.
Proof.
  unfold new_DomainError, safeStringify, payload_of_Errors, strictEquals,
    dump.
  cbn [truthy type toString stringify inspect andb].
  change (String.eqb "object" "object") with true. cbn [andb].
  destruct (Nat.eqb_spec (length es) 1) as [-> | Hn];
    [cbn; destruct (stringify_Errors es); reflexivity | ].
  apply joinDefault_not_default, String.eqb_neq in Hn. rewrite Hn.
  reflexivity.
Qed.

(** ** More on the shell *)

Section ShellExtras.

Context {S R : Type} `{HU : UserService S R} `{HA : AccountService S R}.

(** X12.  When the user lookup finds a user [u] and the account lookup for
    [u]'s id fails with an error, the shell fails with that same error
    (widened to the union), after exactly one call of each operation. *)
Theorem failed_account_lookup_propagates (email : Email) (deps : R)
  (u : User) (e : AccountServiceError) (s s1 s2 : S) :
  RTE.run (getUserByEmail email) deps s = (Right (Some u), s1) ->
  RTE.run (getAccountByOwnerId (id u)) deps s1 = (Left e, s2) ->
  RTE.run (getAccountByUserEmail email) deps s =
    (Left (ofAccountServiceError e), s2) /\
  RTE.run (getAccountByUserEmail email) (jest.mockDeps deps)
    {| jest.world := s; jest.calls := [] |} =
  (Left (ofAccountServiceError e),
   {| jest.world := s2;
      jest.calls := [jest.getUserByEmailCall email;
                     jest.getAccountByOwnerIdCall (id u)] |}).
Proof.
  intros Huser Haccount. split.
  - rewrite run_getAccountByUserEmail, Huser, Haccount. reflexivity.
  - rewrite run_getAccountByUserEmail, run_mocked_getUserByEmail, Huser.
    rewrite run_mocked_getAccountByOwnerId, Haccount. reflexivity.
Qed.

(** X13.  In every environment one run of the shell calls
    [getUserByEmail] exactly once, first, with the email it was given, and
    calls [getAccountByOwnerId] at most once: once with the found user's id
    when the user lookup found a user, not at all otherwise.  The mocks
    change neither the result nor what the implementations do. *)
Theorem shell_call_record (email : Email) (deps : R) (s : S)
  (l : list jest.Call) :
  RTE.run (getAccountByUserEmail email) (jest.mockDeps deps)
    {| jest.world := s; jest.calls := l |} =
  let (result, s') := RTE.run (getAccountByUserEmail email) deps s in
  (result,
   {| jest.world := s';
      jest.calls :=
        (l ++ jest.getUserByEmailCall email ::
           match fst (RTE.run (getUserByEmail email) deps s) with
           | Right (Some u) => [jest.getAccountByOwnerIdCall (id u)]
           | _ => []
           end)%list |}).
Proof.
  rewrite !run_getAccountByUserEmail, run_mocked_getUserByEmail.
  destruct (RTE.run (getUserByEmail email) deps s) as [[e | [u | ]] s1];
    cbn [fst]; try reflexivity.
  rewrite run_mocked_getAccountByOwnerId.
  destruct (RTE.run (getAccountByOwnerId (id u)) deps s1) as [account s2].
  rewrite <- app_assoc. reflexivity.
Qed.

End ShellExtras.

Lemma HardcodedAccountDb_lookup (key : string) :
  RR.lookup key HardcodedAccountProvider.HardcodedAccountDb =
  if String.eqb key "a2a9a967-10bb-43b9-8230-99ae3a3d161f"
  then Some HardcodedAccountProvider.ethansAccount
  else None.
Proof.
  unfold RR.lookup, HardcodedAccountProvider.HardcodedAccountDb.
  destruct (String.eqb_spec key "a2a9a967-10bb-43b9-8230-99ae3a3d161f")
    as [-> | Hne].
  - apply lookup_singleton_eq.
  - apply lookup_singleton_ne. congruence.
Qed.

Lemma hardcoded_account_run {W : Type} (ownerId : UserId) (w : W) :
  RTE.run (getAccountByOwnerId ownerId)
    (HardcodedAccountProvider.HardcodedAccountProvider (W := W)) w =
  (Right (RR.lookup (isoUserId.unwrap ownerId)
            HardcodedAccountProvider.HardcodedAccountDb), w).
Proof. reflexivity. Qed.

(** X14.  With the hardcoded account provider spread into any environment
    that has a user service (as src/index.ts does), the shell never fails
    on the account side: it fails only with the user service's error,
    answers absent when no user is found, and otherwise answers with the
    hardcoded account exactly when the found user's id is the stored key.
    The world is the one the user lookup left. *)
Theorem shell_with_hardcoded_accounts {W A : Type} `{HU : UserService W A}
  (email : Email) (a : A) (w : W) :
  RTE.run (getAccountByUserEmail email)
    (spread a (HardcodedAccountProvider.HardcodedAccountProvider (W := W))) w =
  let (user, w1) := RTE.run (getUserByEmail email) a w in
  (match user with
   | Left e => Left (ofUserServiceError e)
   | Right None => Right None
   | Right (Some u) =>
       Right (if String.eqb (isoUserId.unwrap (id u))
                   "a2a9a967-10bb-43b9-8230-99ae3a3d161f"
              then Some HardcodedAccountProvider.ethansAccount
              else None)
   end, w1).
Proof.
  rewrite run_getAccountByUserEmail.
  change (RTE.run (getUserByEmail email)
            (spread a HardcodedAccountProvider.HardcodedAccountProvider) w)
    with (RTE.run (getUserByEmail email) a w).
  destruct (RTE.run (getUserByEmail email) a w) as [[e | [u | ]] w1];
    try reflexivity.
  change (RTE.run (getAccountByOwnerId (id u))
            (spread a HardcodedAccountProvider.HardcodedAccountProvider) w1)
    with (RTE.run (getAccountByOwnerId (id u))
            (HardcodedAccountProvider.HardcodedAccountProvider (W := W)) w1).
  rewrite hardcoded_account_run, HardcodedAccountDb_lookup. reflexivity.
Qed.

(** X15.  The composition of the hardcoded user provider (over any logging
    service) with the hardcoded account provider never fails: it answers
    with the account [69bdcc3d-95df-4497-a6a7-c529e1b010d6], owned by
    [a2a9a967-10bb-43b9-8230-99ae3a3d161f], for ["ekent@mercury.com"], and
    with an absent account for every other email. *)
Theorem hardcoded_composition {W R : Type} `{HL : LoggingService W R}
  (logging : R) (email : Email) (w : W) :
  fst (RTE.run (getAccountByUserEmail email)
         (spread (HardcodedUserProvider.createHardcodedUserProvider logging)
            (HardcodedAccountProvider.HardcodedAccountProvider (W := W))) w) =
  Right (if String.eqb (isoEmail.unwrap email) "ekent@mercury.com"
         then Some
                {| accountId :=
                     isoAccountId.wrap "69bdcc3d-95df-4497-a6a7-c529e1b010d6";
                   ownerId :=
                     isoUserId.wrap "a2a9a967-10bb-43b9-8230-99ae3a3d161f" |}
         else None).
Proof.
  rewrite run_getAccountByUserEmail.
  change (RTE.run (getUserByEmail email)
            (spread (HardcodedUserProvider.createHardcodedUserProvider logging)
               HardcodedAccountProvider.HardcodedAccountProvider) w)
    with (RTE.run
            (HardcodedUserProvider.getUserByEmail (E := UserServiceError)
               email) logging w).
  rewrite run_hardcoded_getUserByEmail. cbv zeta.
  rewrite run_log.
  rewrite (run_log
             ("Result: " ++
              JSON.stringify_OptionUser
                (RR.lookup (isoEmail.unwrap email)
                   HardcodedUserProvider.HardcodedUserDb))).
  cbn [E.map]. rewrite HardcodedUserDb_lookup.
  destruct (String.eqb (isoEmail.unwrap email) "ekent@mercury.com");
    [ | reflexivity].
  change (RTE.run (getAccountByOwnerId (id HardcodedUserProvider.ethan))
            (spread (HardcodedUserProvider.createHardcodedUserProvider logging)
               HardcodedAccountProvider.HardcodedAccountProvider))
    with (RTE.run (getAccountByOwnerId (id HardcodedUserProvider.ethan))
            (HardcodedAccountProvider.HardcodedAccountProvider (W := W))).
  rewrite hardcoded_account_run. reflexivity.
Qed.

(** ** The console provider *)

Lemma run_console_log {E : Type} (m : string)
  (out : ConsoleLoggingProvider.Console) :
  RTE.run (log (E := E) m) ConsoleLoggingProvider.ConsoleLoggingProvider out =
  (Right tt, (out ++ [m])%list).
Proof. reflexivity. Qed.

(** X16.  With the console provider, a lookup through the hardcoded user
    provider keeps the lines already on the console and appends exactly
    two, in order: the lookup line and the result line.  The lines are
    written when the task runs: calling the provider's operation writes
    nothing, and the task it returns appends the two lines to whatever
    console it is run on, every time it is run.  The same holds of [log]
    alone, with its one line. *)
Theorem hardcoded_lookup_on_console (address : Email)
  (out : ConsoleLoggingProvider.Console) :
  let key := isoEmail.unwrap address in
  let found :=
    if String.eqb key "ekent@mercury.com"
    then Some {| firstName := "Ethan";
                 lastName := "Kent";
                 id := isoUserId.wrap "a2a9a967-10bb-43b9-8230-99ae3a3d161f";
                 email := isoEmail.wrap "ekent@mercury.com" |}
    else None in
  let lines :=
    [("Looking up email `" ++ key ++ "`")%string;
     ("Result: " ++ JSON.stringify_OptionUser found)%string] in
  let provider :=
    HardcodedUserProvider.createHardcodedUserProvider
      ConsoleLoggingProvider.ConsoleLoggingProvider in
  RTE.run (getUserByEmail address) provider out =
    (Right found, (out ++ lines)%list) /\
  snd (getUserByEmail address provider out) = out /\
  (forall out' : ConsoleLoggingProvider.Console,
     fst (getUserByEmail address provider out) out' =
     (Right found, (out' ++ lines)%list)) /\
  (forall (m : string) (out' : ConsoleLoggingProvider.Console),
     snd (log (E := Empty_set) m
            ConsoleLoggingProvider.ConsoleLoggingProvider out) = out /\
     fst (log (E := Empty_set) m
            ConsoleLoggingProvider.ConsoleLoggingProvider out) out' =
     (Right tt, (out' ++ [m])%list)).
Proof.
  cbv zeta.
  assert (Hrun : forall o : ConsoleLoggingProvider.Console,
            RTE.run (getUserByEmail address)
              (HardcodedUserProvider.createHardcodedUserProvider
                 ConsoleLoggingProvider.ConsoleLoggingProvider) o =
            (Right
               (if String.eqb (isoEmail.unwrap address) "ekent@mercury.com"
                then Some HardcodedUserProvider.ethan else None),
             (o ++ [("Looking up email `" ++ isoEmail.unwrap address ++ "`")
                      %string;
                    ("Result: " ++
                     JSON.stringify_OptionUser
                       (if String.eqb (isoEmail.unwrap address)
                             "ekent@mercury.com"
                        then Some HardcodedUserProvider.ethan else None))
                      %string])%list)).
  { intros o.
    change (RTE.run (getUserByEmail address)
              (HardcodedUserProvider.createHardcodedUserProvider
                 ConsoleLoggingProvider.ConsoleLoggingProvider))
      with (RTE.run
              (HardcodedUserProvider.getUserByEmail (E := UserServiceError)
                 address)
              ConsoleLoggingProvider.ConsoleLoggingProvider).
    rewrite run_hardcoded_getUserByEmail. cbv zeta.
    rewrite !run_console_log. cbn [E.map].
    rewrite HardcodedUserDb_lookup, <- app_assoc. reflexivity. }
  split; [apply Hrun | ].
  split; [reflexivity | ].
  split; [ | intros m out'; split; reflexivity].
  intros out'. rewrite <- Hrun. reflexivity.
Qed.

(** ** More on DomainError *)

Lemma list_ascii_of_string_app (a b : string) :
  list_ascii_of_string (a ++ b) =
  (list_ascii_of_string a ++ list_ascii_of_string b)%list.
Proof.
  induction a as [ | c a IH]; [reflexivity | ].
  change (c :: list_ascii_of_string (a ++ b) =
          c :: (list_ascii_of_string a ++ list_ascii_of_string b)%list).
  f_equal. exact IH.
Qed.

Lemma named_error_rendering_not_default (name msg : string) :
  name ++ ": " ++ msg <> Object_prototype_toString.
Proof.
  intros Heq.
  assert (Hin : In ":"%char (list_ascii_of_string (name ++ ": " ++ msg))).
  { rewrite list_ascii_of_string_app. apply in_or_app. right. left.
    reflexivity. }
  rewrite Heq in Hin. cbn in Hin.
  repeat (destruct Hin as [Hin | Hin]; [discriminate | ]). exact Hin.
Qed.

(** X17.  For a genuine [Error] with a non-empty name and a non-empty
    message, the constructor of [DomainError] returns, and the message of
    the error it builds is [name: message], whatever [JSON.stringify] and
    [util.inspect] would make of the error. *)
Theorem Error_payload_message (e : JsError) :
  error_name e <> "" ->
  error_message e <> "" ->
  new_DomainError (payload_of_error e) =
  Normal {| message := JsString (error_name e ++ ": " ++ error_message e) |}.
Proof.
  intros Hname Hmessage.
  unfold new_DomainError, safeStringify, payload_of_error,
    Error_prototype_toString, strictEquals.
  cbn [truthy type toString stringify inspect andb].
  change (String.eqb "object" "object") with true. cbn [andb].
  apply String.eqb_neq in Hname, Hmessage. rewrite Hname, Hmessage.
  pose proof (named_error_rendering_not_default (error_name e)
                (error_message e)) as Hrender.
  apply String.eqb_neq in Hrender. rewrite Hrender. reflexivity.
Qed.

Lemma dump_undefined_iff (data : Payload) :
  match dump data with
  | Normal m => Normal {| message := m |}
  | Throws => Throws
  end = Normal {| message := JsUndefined |} <->
  stringify data = StringifiedUndefined.
Proof.
  unfold dump.
  destruct (stringify data); [ | | destruct (inspect data)]; split;
    intros H; try discriminate; reflexivity.
Qed.

(** X18.  Although its declared type is [string], the message of a
    [DomainError] is JavaScript's [undefined] in exactly two cases: the
    payload is a truthy object whose [toString] returns [undefined]; or
    [JSON.stringify] returns [undefined] for the payload and the payload's
    [toString] is not used (the payload is falsy, is not an object, or
    renders as the default). *)
Theorem DomainError_message_undefined_iff (data : Payload) :
  new_DomainError data = Normal {| message := JsUndefined |} <->
  (truthy data = true /\ type data = "object" /\
   toString data = ToStringReturns JsUndefined) \/
  (stringify data = StringifiedUndefined /\
   (truthy data = false \/ type data <> "object" \/
    toString data = ToStringReturns (JsString "[object Object]"))).
Proof.
  unfold new_DomainError, safeStringify, strictEquals,
    Object_prototype_toString.
  destruct (truthy data); cbn [andb].
  - destruct (String.eqb_spec (type data) "object") as [Htype | Htype].
    + destruct (toString data) as [v | ].
      * destruct v as [ | | b | n | s | items | props]; cbn [negb];
          try (intuition congruence).
        destruct (String.eqb_spec s "[object Object]") as [-> | Hs];
          cbn [negb].
        -- rewrite dump_undefined_iff. intuition congruence.
        -- intuition congruence.
      * intuition congruence.
    + rewrite dump_undefined_iff. intuition congruence.
  - rewrite dump_undefined_iff. intuition congruence.
Qed.

(** ** The further properties at concrete inputs *)

(** X3 at the empty object: all four properties are reported, in
    declaration order. *)
Lemma User_decode_reports_every_bad_property_witness :
  let es :=
    [ {| ve_value := JsUndefined; ve_context := [""; "firstName"] |};
      {| ve_value := JsUndefined; ve_context := [""; "lastName"] |};
      {| ve_value := JsUndefined; ve_context := [""; "id"] |};
      {| ve_value := JsUndefined; ve_context := [""; "email"] |} ] in
  User_decode HexGroups.test (JsObject []) = Left es /\
  es <> [] /\
  ((exists e, In e es /\ ve_context e = [""; "id"]) <->
   forall s, getProp "id" [] = JsString s -> HexGroups.test s = false).
Proof.
  cbv zeta. split; [reflexivity | ].
  pose proof (User_decode_reports_every_bad_property HexGroups.test []
                [ {| ve_value := JsUndefined; ve_context := [""; "firstName"] |};
                  {| ve_value := JsUndefined; ve_context := [""; "lastName"] |};
                  {| ve_value := JsUndefined; ve_context := [""; "id"] |};
                  {| ve_value := JsUndefined; ve_context := [""; "email"] |} ]
                eq_refl) as (Hne & _ & _ & Hid & _).
  split; [exact Hne | exact Hid].
Defined.

(** X6 at the spec's database without a matching row
    ([createTestDeps(null)]). *)
Lemma db_no_row_is_absent_user_witness :
  RTE.run (getUserByEmail (isoEmail.wrap "ekent@mercury.com"))
    (DbUserProvider.createDbUserProvider HexGroups.test Fixtures.noStringify
       Fixtures.noInspect (Fixtures.createTestDeps JsNull None)) tt =
  (Right None, tt).
Proof.
  apply (db_no_row_is_absent_user HexGroups.test Fixtures.noStringify
           Fixtures.noInspect
           (isoEmail.wrap "ekent@mercury.com")
           (Fixtures.createTestDeps JsNull None) JsNull tt tt).
  - reflexivity.
  - left. reflexivity.
Defined.

(** X7 at the spec's database holding the hardcoded user
    ([createTestDeps(mockUser)]). *)
Lemma db_valid_row_is_present_user_witness :
  exists props fn ln i e,
    DbSpec.rowOfUser HardcodedUserProvider.ethan = JsObject props /\
    getProp "firstName" props = JsString fn /\
    getProp "lastName" props = JsString ln /\
    getProp "id" props = JsString i /\
    getProp "email" props = JsString e /\
    RTE.run (getUserByEmail (isoEmail.wrap "ekent@mercury.com"))
      (DbUserProvider.createDbUserProvider HexGroups.test Fixtures.noStringify
         Fixtures.noInspect
         (Fixtures.createTestDeps
            (DbSpec.rowOfUser HardcodedUserProvider.ethan) None)) tt =
    (Right (Some {| firstName := fn; lastName := ln;
                    id := isoUserId.wrap i; email := isoEmail.wrap e |}),
     tt).
Proof.
  apply (db_valid_row_is_present_user HexGroups.test Fixtures.noStringify
           Fixtures.noInspect
           (isoEmail.wrap "ekent@mercury.com")
           (Fixtures.createTestDeps
              (DbSpec.rowOfUser HardcodedUserProvider.ethan) None)
           (DbSpec.rowOfUser HardcodedUserProvider.ethan)
           (DbSpec.rowOfUser HardcodedUserProvider.ethan) tt tt).
  - reflexivity.
  - reflexivity.
Defined.

(** X8 at a database whose row is an empty object: four errors, so the
    message is four default renderings joined by commas. *)
Lemma db_invalid_row_is_invalid_data_error_witness :
  RTE.run (getUserByEmail (isoEmail.wrap "ekent@mercury.com"))
    (DbUserProvider.createDbUserProvider HexGroups.test Fixtures.noStringify
       Fixtures.noInspect (Fixtures.createTestDeps (JsObject []) None)) tt =
  (Left (UserServiceInvalidDataError
           {| message :=
                JsString
                  "[object Object],[object Object],[object Object],[object Object]"
           |}),
   tt).
Proof.
  apply (db_invalid_row_is_invalid_data_error HexGroups.test
           Fixtures.noStringify Fixtures.noInspect
           (isoEmail.wrap "ekent@mercury.com")
           (Fixtures.createTestDeps (JsObject []) None) (JsObject [])
           [ {| ve_value := JsUndefined; ve_context := [""; "firstName"] |};
             {| ve_value := JsUndefined; ve_context := [""; "lastName"] |};
             {| ve_value := JsUndefined; ve_context := [""; "id"] |};
             {| ve_value := JsUndefined; ve_context := [""; "email"] |} ]
           tt tt).
  - reflexivity.
  - discriminate.
  - discriminate.
  - reflexivity.
Defined.

(** X9 at the spec's database holding the hardcoded user. *)
Lemma db_user_has_UUID_id_witness :
  HexGroups.test (isoUserId.unwrap (id HardcodedUserProvider.ethan)) = true /\
  exists row,
    User_decode HexGroups.test row = Right row /\
    User_view row = HardcodedUserProvider.ethan.
Proof.
  apply (db_user_has_UUID_id HexGroups.test Fixtures.noStringify
           Fixtures.noInspect
           (isoEmail.wrap "ekent@mercury.com")
           (Fixtures.createTestDeps
              (DbSpec.rowOfUser HardcodedUserProvider.ethan) None)
           HardcodedUserProvider.ethan tt).
  reflexivity.
Defined.

(** X12 at mocks whose account lookup fails. *)
Lemma failed_account_lookup_propagates_witness :
  let e :=
    mkAccountServiceError {| message := JsString "account lookup failed" |} in
  let deps :=
    Fixtures.depsReturning (TE.of_ (Some Fixtures.testUser))
      (T.of_ (Left e)) in
  RTE.run (getAccountByUserEmail (isoEmail.wrap "input")) deps tt =
    (Left (ofAccountServiceError e), tt) /\
  RTE.run (getAccountByUserEmail (isoEmail.wrap "input")) (jest.mockDeps deps)
    {| jest.world := tt; jest.calls := [] |} =
  (Left (ofAccountServiceError e),
   {| jest.world := tt;
      jest.calls := [jest.getUserByEmailCall (isoEmail.wrap "input");
                     jest.getAccountByOwnerIdCall
                       (isoUserId.wrap "testUserId1")] |}).
Proof.
  cbv zeta.
  apply (failed_account_lookup_propagates (isoEmail.wrap "input")
           (Fixtures.depsReturning (TE.of_ (Some Fixtures.testUser))
              (T.of_ (Left (mkAccountServiceError
                              {| message :=
                                   JsString "account lookup failed" |}))))
           Fixtures.testUser
           (mkAccountServiceError
              {| message := JsString "account lookup failed" |}) tt tt tt);
    reflexivity.
Defined.

(** X17 at the error of db-user-provider.spec.ts. *)
Lemma Error_payload_message_witness :
  new_DomainError
    (payload_of_error (Fixtures.Error_ "DB failure" "Error: DB failure")) =
  Normal {| message := JsString "Error: DB failure" |}.
Proof.
  apply (Error_payload_message
           (Fixtures.Error_ "DB failure" "Error: DB failure"));
    discriminate.
Defined.
